(** * geli: course enrollment and content-unit lifecycle

    A shallow embedding of the request handlers of
    [api/src/controllers/CourseController.ts],
    [api/src/controllers/UnitController.ts] and of the hooks of
    [api/src/models/units/FileUnit.ts].

    Handlers are promise chains over the database and the file system.
    They are embedded as state-passing functions over a [World]; a
    chain either fulfils with a value or rejects with a thrown error,
    and whatever was written before a throw stays written. *)

From Stdlib Require Import String Ascii List ZArith Bool Lia.
Import ListNotations.

Local Open Scope string_scope.
Local Open Scope list_scope.
Local Open Scope Z_scope.

(** ** JavaScript values and array methods *)

Definition ObjectId := string.

(** A value found in a parsed JSON request body ([data: any]). *)
Inductive JsValue :=
| JsUndefined
| JsNull
| JsBoolean (b : bool)
| JsNumber (n : Z)
| JsString (s : string)
| JsObject.

(** Truthiness of a possibly absent string: [undefined] and [''] are falsy. *)
Definition truthy (v : option string) : bool :=
  match v with
  | Some s => negb (s =? EmptyString)%string
  | None => false
  end.

(** [a !== b] for a possibly absent string [a] and a body value [b]. *)
Definition strictNotEqual (a : option string) (b : JsValue) : bool :=
  match a, b with
  | None, JsUndefined => false
  | Some s, JsString s' => negb (s =? s')%string
  | _, _ => true
  end.

Fixpoint indexOfFrom (xs : list ObjectId) (x : ObjectId) (i : Z) : Z :=
  match xs with
  | [] => -1
  | y :: ys => if (y =? x)%string then i else indexOfFrom ys x (i + 1)
  end.

(** [Array.prototype.indexOf]: position of the first occurrence, [-1] if none. *)
Definition indexOf (xs : list ObjectId) (x : ObjectId) : Z := indexOfFrom xs x 0.

(** [Array.prototype.push] of one element. *)
Definition push {A} (xs : list A) (x : A) : list A := xs ++ [x].

(** [Array.prototype.splice(start, deleteCount)], the array that is left:
    a negative [start] counts from the end, and both arguments are clamped
    to the array. *)
Definition splice {A} (xs : list A) (start deleteCount : Z) : list A :=
  let len := Z.of_nat (length xs) in
  let actualStart :=
    if start <? 0 then Z.max (len + start) 0 else Z.min start len in
  let actualDeleteCount := Z.min (Z.max deleteCount 0) (len - actualStart) in
  firstn (Z.to_nat actualStart) xs
    ++ skipn (Z.to_nat (actualStart + actualDeleteCount)) xs.

(** [Array.prototype.some]. *)
Definition some {A} (p : A -> bool) (xs : list A) : bool := existsb p xs.

(** ** Documents *)

Module IUser.
Record t := mk {
  _id : ObjectId;
  uid : string;
  firstName : string;   (* profile.firstName *)
  lastName : string;    (* profile.lastName *)
  role : string
}.
End IUser.

Module IWhitelistUser.
Record t := mk {
  _id : ObjectId;
  firstName : string;
  lastName : string;
  uid : string
}.
End IWhitelistUser.

Module ICourse.
Record t := mk {
  _id : ObjectId;
  name : string;
  description : string;
  active : bool;
  enrollType : string;
  accessKey : option string;
  whitelist : list ObjectId;
  courseAdmin : ObjectId;
  teachers : list ObjectId;
  students : list ObjectId;
  lectures : list ObjectId
}.

Definition setStudents (c : t) (s : list ObjectId) : t :=
  mk (_id c) (name c) (description c) (active c) (enrollType c)
     (accessKey c) (whitelist c) (courseAdmin c) (teachers c) s (lectures c).

Definition setActive (b : bool) (c : t) : t :=
  mk (_id c) (name c) (description c) b (enrollType c)
     (accessKey c) (whitelist c) (courseAdmin c) (teachers c) (students c)
     (lectures c).
End ICourse.

Module IFile.
Record t := mk {
  path : string;
  name : string;
  alias : string;
  size : Z
}.
End IFile.

(** The discriminated unit document.  Only the fields the handlers read
    are kept per variant; [code = None] is JavaScript's [null]. *)
Inductive UnitVariant :=
| FileUnit (fileUnitType : string) (files : list IFile.t)
| CodeKataUnit (code : option string)
| TaskUnit (tasks : list ObjectId)
| FreeTextUnit (markdown : string).

Module IUnit.
Record t := mk {
  _id : ObjectId;
  name : string;
  description : string;
  _course : ObjectId;
  variant : UnitVariant
}.

(** The discriminator key [__t] that Mongoose stores with the document. *)
Definition __t (u : t) : string :=
  match variant u with
  | FileUnit _ _ => "file"
  | CodeKataUnit _ => "code-kata"
  | TaskUnit _ => "task"
  | FreeTextUnit _ => "free-text"
  end.

Definition files (u : t) : list IFile.t :=
  match variant u with
  | FileUnit _ fs => fs
  | _ => []
  end.

Definition setVariant (u : t) (v : UnitVariant) : t :=
  mk (_id u) (name u) (description u) (_course u) v.

(** The assignment [(<ICodeKataUnit>unit).code = v]. *)
Definition setCode (u : t) (v : option string) : t :=
  match variant u with
  | CodeKataUnit _ => setVariant u (CodeKataUnit v)
  | _ => u
  end.
End IUnit.

Module ILecture.
(** [U] is [ObjectId] for a stored lecture and [IUnit.t] once
    [populate] has replaced the references by the documents. *)
Record t (U : Type) := mk {
  _id : ObjectId;
  name : string;
  description : string;
  units : list U
}.
Arguments mk {U}.
Arguments _id {U}.
Arguments name {U}.
Arguments description {U}.
Arguments units {U}.

Definition setUnits {U V} (l : t U) (us : list V) : t V :=
  mk (_id l) (name l) (description l) us.
End ILecture.

(** ** The world: collections and the upload directory *)

Record World := mkWorld {
  Courses : list ICourse.t;
  Lectures : list (ILecture.t ObjectId);
  Units : list IUnit.t;
  Users : list IUser.t;
  WhitelistUsers : list IWhitelistUser.t;
  disk : list string;          (* paths of the files that exist *)
  unlinkCalls : list string    (* every path handed to fs.unlink, in order *)
}.

Definition setCourses (w : World) (cs : list ICourse.t) : World :=
  mkWorld cs (Lectures w) (Units w) (Users w) (WhitelistUsers w)
          (disk w) (unlinkCalls w).

Definition setLectures (w : World) (ls : list (ILecture.t ObjectId)) : World :=
  mkWorld (Courses w) ls (Units w) (Users w) (WhitelistUsers w)
          (disk w) (unlinkCalls w).

Definition setUnits (w : World) (us : list IUnit.t) : World :=
  mkWorld (Courses w) (Lectures w) us (Users w) (WhitelistUsers w)
          (disk w) (unlinkCalls w).

Definition setDisk (w : World) (d : list string) : World :=
  mkWorld (Courses w) (Lectures w) (Units w) (Users w) (WhitelistUsers w)
          d (unlinkCalls w).

(** ** Promises *)

(** Codes read from [config/errorCodes], named by their path there. *)
Inductive ErrorCode :=
| course_notOnWhitelist
| course_accessKey
| course_duplicateName.

Inductive HttpError :=
| NotFoundError
| ForbiddenError (code : ErrorCode)
| BadRequestError (code : ErrorCode).

Inductive Settled (A : Type) :=
| Fulfilled (a : A)
| Rejected (e : HttpError).
Arguments Fulfilled {A} a.
Arguments Rejected {A} e.

Definition Promise (A : Type) : Type := World -> Settled A * World.

Definition resolve {A} (a : A) : Promise A := fun w => (Fulfilled a, w).

Definition throw {A} (e : HttpError) : Promise A := fun w => (Rejected e, w).

Definition andThen {A B} (p : Promise A) (f : A -> Promise B) : Promise B :=
  fun w =>
    match p w with
    | (Fulfilled a, w') => f a w'
    | (Rejected e, w') => (Rejected e, w')
    end.

Notation "x <- p ;; k" := (andThen p (fun x => k))
  (at level 61, p at next level, right associativity).

(** ** Persistence *)

Fixpoint findCourse (id : ObjectId) (cs : list ICourse.t) : option ICourse.t :=
  match cs with
  | [] => None
  | c :: cs' => if (ICourse._id c =? id)%string then Some c else findCourse id cs'
  end.

(** [Course.findById(id)]. *)
Definition Course_findById (id : ObjectId) : Promise (option ICourse.t) :=
  fun w => (Fulfilled (findCourse id (Courses w)), w).

Fixpoint replaceCourse (c : ICourse.t) (cs : list ICourse.t) : list ICourse.t :=
  match cs with
  | [] => []
  | c' :: cs' =>
      if (ICourse._id c' =? ICourse._id c)%string then c :: cs'
      else c' :: replaceCourse c cs'
  end.

(** [course.save()] of a document that was loaded from the collection. *)
Definition Course_save (c : ICourse.t) : Promise ICourse.t :=
  fun w => (Fulfilled c, setCourses w (replaceCourse c (Courses w))).

(** ** CourseController: enroll and leave *)

(** The request body of [POST /:id/enroll]. *)
Record EnrollData := mkData { accessKey : JsValue }.

Section Enrollment.

(** [String.prototype.toLowerCase]. *)
Variable toLowerCase : string -> string.

(** [WhitelistUser.find(course.whitelist)]: the entries the query hands
    back for the references stored on the course. *)
Variable WhitelistUser_find :
  list IWhitelistUser.t -> list ObjectId -> list IWhitelistUser.t.

Definition WhitelistUser_find_course (refs : list ObjectId)
  : Promise (list IWhitelistUser.t) :=
  fun w => (Fulfilled (WhitelistUser_find (WhitelistUsers w) refs), w).

(** The predicate of the [wUsers.filter] call. *)
Definition onWhitelist (currentUser : IUser.t) (e : IWhitelistUser.t) : bool :=
  (IWhitelistUser.firstName e =? toLowerCase (IUser.firstName currentUser))%string
  && (IWhitelistUser.lastName e =? toLowerCase (IUser.lastName currentUser))%string
  && (IWhitelistUser.uid e =? IUser.uid currentUser)%string.

(** The membership step, lines 411 to 417 of the controller. *)
Definition addStudent (course : ICourse.t) (currentUser : IUser.t)
  : Promise (option ICourse.t) :=
  if indexOf (ICourse.students course) (IUser._id currentUser) <? 0 then
    c <- Course_save
           (ICourse.setStudents course
              (push (ICourse.students course) (IUser._id currentUser))) ;;
    resolve (Some c)
  else
    resolve (Some course).

(** [enrollStudent].  The value is the response body; [None] is
    [undefined], which is what the whitelist branch returns when the
    callback of its [then] does not throw. *)
Definition enrollStudent (id : ObjectId) (data : EnrollData)
    (currentUser : IUser.t) : Promise (option ICourse.t) :=
  course <- Course_findById id ;;
  match course with
  | None => throw NotFoundError
  | Some course =>
      if (ICourse.enrollType course =? "whitelist")%string then
        wUsers <- WhitelistUser_find_course (ICourse.whitelist course) ;;
        if Z.of_nat (length (filter (onWhitelist currentUser) wUsers)) <=? 0
        then throw (ForbiddenError course_notOnWhitelist)
        else resolve None
      else if truthy (ICourse.accessKey course)
              && strictNotEqual (ICourse.accessKey course) (accessKey data)
      then throw (ForbiddenError course_accessKey)
      else addStudent course currentUser
  end.

(** [leaveStudent]. *)
Definition leaveStudent (id : ObjectId) (data : EnrollData)
    (currentUser : IUser.t) : Promise ICourse.t :=
  course <- Course_findById id ;;
  match course with
  | None => throw NotFoundError
  | Some course =>
      let index := indexOf (ICourse.students course) (IUser._id currentUser) in
      if negb (index =? 0) then
        c <- Course_save
               (ICourse.setStudents course
                  (splice (ICourse.students course) index 1)) ;;
        resolve c
      else
        resolve course
  end.

End Enrollment.

(** ** The file system *)

Definition removePath (p : string) (ps : list string) : list string :=
  filter (fun q => negb (q =? p)%string) ps.

(** [fs.unlink(path, callback)]: the call is recorded, the file goes away
    when it exists, and the callback is handed the error when it does not. *)
Definition fs_unlink (path : string) (callback : option string -> World -> World)
  : World -> World :=
  fun w =>
    let err :=
      if existsb (String.eqb path) (disk w) then None else Some "ENOENT" in
    callback err
      (mkWorld (Courses w) (Lectures w) (Units w) (Users w) (WhitelistUsers w)
               (removePath path (disk w)) (unlinkCalls w ++ [path])).

(** The callback [() => {}]. *)
Definition discard : option string -> World -> World := fun _ w => w.

(** [Array.prototype.forEach] with a callback that acts on the world. *)
Definition forEach {A} (xs : list A) (f : A -> World -> World) : World -> World :=
  fun w => fold_left (fun w' x => f x w') xs w.

(** ** FileUnit: the hooks of [fileUnitSchema] *)

(** [fileUnitSchema.pre('remove', ...)]. *)
Definition FileUnit_preRemove (this : IUnit.t) (next : World -> World)
  : World -> World :=
  fun w =>
    next (forEach (IUnit.files this)
            (fun file => fs_unlink (IFile.path file) discard) w).

(** [fileUnitSchema.path('files').set(...)]: the value handed back is the one
    that gets stored in [files]. *)
Definition FileUnit_setFiles (this : IUnit.t) (newFiles : list IFile.t)
  : World -> list IFile.t * World :=
  fun w =>
    (newFiles,
     forEach (IUnit.files this)
       (fun file w' =>
          if negb (some (fun newFile =>
                           (IFile.name newFile =? IFile.name file)%string)
                        newFiles)
          then fs_unlink (IFile.path file) discard w'
          else w')
       w).

(** ** UnitController: delete *)

Fixpoint findUnit (id : ObjectId) (us : list IUnit.t) : option IUnit.t :=
  match us with
  | [] => None
  | u :: us' => if (IUnit._id u =? id)%string then Some u else findUnit id us'
  end.

(** [Unit.findById(id)]. *)
Definition Unit_findById (id : ObjectId) : Promise (option IUnit.t) :=
  fun w => (Fulfilled (findUnit id (Units w)), w).

(** [unit.remove()]: the [pre('remove')] hook of the document's schema runs,
    then the document leaves the collection.  The file schema is the one
    that registers such a hook. *)
Definition Unit_remove (unit : IUnit.t) : Promise Datatypes.unit :=
  fun w =>
    let w1 :=
      if (IUnit.__t unit =? "file")%string
      then FileUnit_preRemove unit (fun w' => w') w
      else w in
    (Fulfilled tt,
     setUnits w1
       (filter (fun u => negb (IUnit._id u =? IUnit._id unit)%string) (Units w1))).

Fixpoint updateFirst {A} (conditions : A -> bool) (doc : A -> A) (xs : list A)
  : list A :=
  match xs with
  | [] => []
  | x :: xs' =>
      if conditions x then doc x :: xs' else x :: updateFirst conditions doc xs'
  end.

Definition updateMany {A} (conditions : A -> bool) (doc : A -> A) (xs : list A)
  : list A :=
  map (fun x => if conditions x then doc x else x) xs.

(** [Lecture.update(conditions, doc, options)].  Mongoose's [Model.update]
    changes the first document that matches [conditions]; it changes every
    match only under the option [multi: true]. *)
Definition Lecture_update (conditions : ILecture.t ObjectId -> bool)
    (doc : ILecture.t ObjectId -> ILecture.t ObjectId) (multi : bool)
  : Promise unit :=
  fun w =>
    (Fulfilled tt,
     setLectures w
       ((if multi then updateMany else updateFirst) conditions doc (Lectures w))).

(** The update document [{$pull: {units: id}}]. *)
Definition pull_units (id : ObjectId) (l : ILecture.t ObjectId)
  : ILecture.t ObjectId :=
  ILecture.setUnits l
    (filter (fun u => negb (u =? id)%string) (ILecture.units l)).

(** [deleteUnit]; the value [true] is the body [{result: true}]. *)
Definition deleteUnit (id : ObjectId) : Promise bool :=
  unit <- Unit_findById id ;;
  match unit with
  | None => throw NotFoundError
  | Some unit =>
      _ <- Lecture_update (fun _ => true) (pull_units id) false ;;
      _ <- Unit_remove unit ;;
      resolve true
  end.

(** ** CourseController: reading courses *)

(** One clause of a query's [$or] array. *)
Inductive Clause :=
| students_has (id : ObjectId)       (* {students: id} *)
| teachers_has (id : ObjectId)       (* {teachers: id} *)
| courseAdmin_is (id : ObjectId)     (* {courseAdmin: id} *)
| enrollType_is (s : string).        (* {enrollType: s} *)

(** The query objects the controller builds; an absent key is [None]. *)
Record Conditions := mkConditions {
  cond_active : option bool;
  cond_or : option (list Clause);
  cond_id : option ObjectId
}.

Definition userReadConditions (currentUser : IUser.t) : Conditions :=
  if (IUser.role currentUser =? "admin")%string then
    mkConditions None None None
  else if (IUser.role currentUser =? "student")%string then
    mkConditions (Some true) (Some [students_has (IUser._id currentUser)]) None
  else
    mkConditions None
      (Some [teachers_has (IUser._id currentUser);
             courseAdmin_is (IUser._id currentUser)])
      None.

Definition holds (c : ICourse.t) (cl : Clause) : bool :=
  match cl with
  | students_has id => existsb (String.eqb id) (ICourse.students c)
  | teachers_has id => existsb (String.eqb id) (ICourse.teachers c)
  | courseAdmin_is id => (ICourse.courseAdmin c =? id)%string
  | enrollType_is s => (ICourse.enrollType c =? s)%string
  end.

(** Whether a stored course matches a query: every key that is present
    has to match, and [$or] asks for one of its clauses. *)
Definition matches (q : Conditions) (c : ICourse.t) : bool :=
  match cond_active q with Some b => Bool.eqb (ICourse.active c) b | None => true end
  && match cond_or q with Some cls => existsb (holds c) cls | None => true end
  && match cond_id q with Some id => (ICourse._id c =? id)%string | None => true end.

Module CourseObject.
(** A course after [populate] and [toObject]: [L] is what its lectures
    have become and [W] what its whitelist has become.  A deleted or
    unresolved [courseAdmin] is [None]. *)
Record t (L W : Type) := mk {
  _id : ObjectId;
  name : string;
  description : string;
  active : bool;
  enrollType : string;
  accessKey : option string;
  whitelist : list W;
  courseAdmin : option IUser.t;
  teachers : list IUser.t;
  students : list IUser.t;
  lectures : list L
}.
Arguments mk {L W}.
Arguments _id {L W}.
Arguments name {L W}.
Arguments description {L W}.
Arguments active {L W}.
Arguments enrollType {L W}.
Arguments accessKey {L W}.
Arguments whitelist {L W}.
Arguments courseAdmin {L W}.
Arguments teachers {L W}.
Arguments students {L W}.
Arguments lectures {L W}.

Definition deleteCourseAdmin {L W} (o : t L W) : t L W :=
  mk (_id o) (name o) (description o) (active o) (enrollType o) (accessKey o)
     (whitelist o) None (teachers o) (students o) (lectures o).

Definition setStudents {L W} (o : t L W) (s : list IUser.t) : t L W :=
  mk (_id o) (name o) (description o) (active o) (enrollType o) (accessKey o)
     (whitelist o) (courseAdmin o) (teachers o) s (lectures o).

Definition setLectures {L L' W} (o : t L W) (ls : list L') : t L' W :=
  mk (_id o) (name o) (description o) (active o) (enrollType o) (accessKey o)
     (whitelist o) (courseAdmin o) (teachers o) (students o) ls.
End CourseObject.

Fixpoint findUser (id : ObjectId) (us : list IUser.t) : option IUser.t :=
  match us with
  | [] => None
  | u :: us' => if (IUser._id u =? id)%string then Some u else findUser id us'
  end.

Fixpoint findLecture (id : ObjectId) (ls : list (ILecture.t ObjectId))
  : option (ILecture.t ObjectId) :=
  match ls with
  | [] => None
  | l :: ls' => if (ILecture._id l =? id)%string then Some l else findLecture id ls'
  end.

Fixpoint findWhitelistUser (id : ObjectId) (es : list IWhitelistUser.t)
  : option IWhitelistUser.t :=
  match es with
  | [] => None
  | e :: es' =>
      if (IWhitelistUser._id e =? id)%string then Some e
      else findWhitelistUser id es'
  end.

(** [populate] of an array of references: each reference is replaced by
    the document it names, and a reference that names none is dropped. *)
Definition populate {D} (find : ObjectId -> option D) (refs : list ObjectId)
  : list D :=
  flat_map (fun id => match find id with Some d => [d] | None => [] end) refs.

(** The chain [.populate('lectures').populate('teachers')
    .populate('courseAdmin').populate('students')] of [getCourses]. *)
Definition populateForList (w : World) (c : ICourse.t)
  : CourseObject.t (ILecture.t ObjectId) ObjectId :=
  CourseObject.mk (ICourse._id c) (ICourse.name c) (ICourse.description c)
    (ICourse.active c) (ICourse.enrollType c) (ICourse.accessKey c)
    (ICourse.whitelist c)
    (findUser (ICourse.courseAdmin c) (Users w))
    (populate (fun id => findUser id (Users w)) (ICourse.teachers c))
    (populate (fun id => findUser id (Users w)) (ICourse.students c))
    (populate (fun id => findLecture id (Lectures w)) (ICourse.lectures c)).

(** The chain of [getCourse]: lectures with their units, [courseAdmin],
    [teachers], [students] and [whitelist]. *)
Definition populateForDetail (w : World) (c : ICourse.t)
  : CourseObject.t (ILecture.t IUnit.t) IWhitelistUser.t :=
  CourseObject.mk (ICourse._id c) (ICourse.name c) (ICourse.description c)
    (ICourse.active c) (ICourse.enrollType c) (ICourse.accessKey c)
    (populate (fun id => findWhitelistUser id (WhitelistUsers w))
       (ICourse.whitelist c))
    (findUser (ICourse.courseAdmin c) (Users w))
    (populate (fun id => findUser id (Users w)) (ICourse.teachers c))
    (populate (fun id => findUser id (Users w)) (ICourse.students c))
    (map (fun l =>
            ILecture.setUnits l
              (populate (fun id => findUnit id (Units w)) (ILecture.units l)))
       (populate (fun id => findLecture id (Lectures w)) (ICourse.lectures c))).

(** [Course.find(conditions)] followed by the populate chain. *)
Definition Course_find (conditions : Conditions)
  : Promise (list (CourseObject.t (ILecture.t ObjectId) ObjectId)) :=
  fun w =>
    (Fulfilled (map (populateForList w) (filter (matches conditions) (Courses w))),
     w).

(** [Course.findOne(conditions)] followed by the populate chain. *)
Definition Course_findOne (conditions : Conditions)
  : Promise (option (CourseObject.t (ILecture.t IUnit.t) IWhitelistUser.t)) :=
  fun w =>
    (Fulfilled
       (option_map (populateForDetail w) (find (matches conditions) (Courses w))),
     w).

Section Reading.

(** [student._id === currentUser._id] between the [_id] of a populated
    student and the [_id] of the authenticated user. *)
Variable strictEqual : ObjectId -> ObjectId -> bool.

Definition getCourses (currentUser : IUser.t)
  : Promise (list (CourseObject.t (ILecture.t ObjectId) ObjectId)) :=
  let conditions := userReadConditions currentUser in
  let conditions :=
    match cond_or conditions with
    | Some or =>
        mkConditions (cond_active conditions)
          (Some (push (push or (enrollType_is "free")) (enrollType_is "accesskey")))
          (cond_id conditions)
    | None => conditions
    end in
  courses <- Course_find conditions ;;
  resolve
    (map (fun courseObject =>
            if (IUser.role currentUser =? "student")%string then
              CourseObject.setStudents
                (CourseObject.deleteCourseAdmin courseObject)
                (filter
                   (fun student =>
                      strictEqual (IUser._id student) (IUser._id currentUser))
                   (CourseObject.students courseObject))
            else courseObject)
       courses).

End Reading.

(** The body of the inner [forEach] of [getCourse]. *)
Definition hideCode (currentUser : IUser.t) (unit : IUnit.t) : IUnit.t :=
  if (IUnit.__t unit =? "code-kata")%string
     && (IUser.role currentUser =? "student")%string
  then IUnit.setCode unit None
  else unit.

Definition getCourse (id : ObjectId) (currentUser : IUser.t)
  : Promise (CourseObject.t (ILecture.t IUnit.t) IWhitelistUser.t) :=
  let q := userReadConditions currentUser in
  course <- Course_findOne (mkConditions (cond_active q) (cond_or q) (Some id)) ;;
  match course with
  | None => throw NotFoundError
  | Some course =>
      resolve
        (CourseObject.setLectures course
           (map (fun lecture =>
                   ILecture.setUnits lecture
                     (map (hideCode currentUser) (ILecture.units lecture)))
              (CourseObject.lectures course)))
  end.

(** ** Vocabulary of the statements *)

Definition mapCourses (f : ICourse.t -> ICourse.t) (w : World) : World :=
  setCourses w (map f (Courses w)).

Definition mapSettled {A B} (f : A -> B) (s : Settled A) : Settled B :=
  match s with
  | Fulfilled a => Fulfilled (f a)
  | Rejected e => Rejected e
  end.

(** The students of course [id] as stored in [w]. *)
Definition studentsOf (id : ObjectId) (w : World) : option (list ObjectId) :=
  option_map ICourse.students (findCourse id (Courses w)).

(** The world in which every course has forgotten all students but [uid]. *)
Definition forgetOtherStudents (uid : ObjectId) (w : World) : World :=
  mapCourses
    (fun c =>
       ICourse.setStudents c (filter (String.eqb uid) (ICourse.students c)))
    w.

(** ** Concrete instances and sample worlds *)

Definition lowerAscii (c : ascii) : ascii :=
  let n := nat_of_ascii c in
  if ((65 <=? n) && (n <=? 90))%nat then ascii_of_nat (n + 32) else c.

(** [toLowerCase] on strings of ASCII characters. *)
Fixpoint asciiToLowerCase (s : string) : string :=
  match s with
  | EmptyString => EmptyString
  | String c s' => String (lowerAscii c) (asciiToLowerCase s')
  end.

(** A whitelist query that resolves the references of the course. *)
Definition whitelistByRefs (coll : list IWhitelistUser.t) (refs : list ObjectId)
  : list IWhitelistUser.t :=
  populate (fun id => findWhitelistUser id coll) refs.

Local Abbreviation enrollAscii :=
  (enrollStudent asciiToLowerCase whitelistByRefs).

Definition noKey : EnrollData := mkData JsUndefined.

Definition ada : IUser.t := IUser.mk "u1" "al1" "Ada" "Lovelace" "student".
Definition ada2 : IUser.t := IUser.mk "u2" "al2" "Ada" "Lovelace" "student".
Definition bob : IUser.t := IUser.mk "u3" "bb7" "Bob" "Byte" "student".
Definition snape : IUser.t := IUser.mk "t1" "ss9" "Severus" "Snape" "teacher".

Definition adaEntry : IWhitelistUser.t :=
  IWhitelistUser.mk "w1" "ada" "lovelace" "al1".

Definition sampleCourse (enrollType : string) (active : bool)
    (key : option string) (students : list ObjectId) : ICourse.t :=
  ICourse.mk "c1" "Advanced web development" "Learn all the things!"
    active enrollType key ["w1"] "t1" [] students ["l1"; "l2"].

Definition kata : IUnit.t :=
  IUnit.mk "k1" "Kata" "Exercise" "c1" (CodeKataUnit (Some "return 42;")).

Definition slides : IFile.t := IFile.mk "uploads/aa.pdf" "aa.pdf" "slides.pdf" 10.
Definition notes : IFile.t := IFile.mk "uploads/bb.pdf" "bb.pdf" "notes.pdf" 20.

Definition handout : IUnit.t :=
  IUnit.mk "f1" "Handout" "Reading" "c1" (FileUnit "file" [slides; notes]).

Definition sampleWorld (c : ICourse.t) : World :=
  mkWorld [c]
    [ILecture.mk "l1" "Intro" "First week" ["k1"]; ILecture.mk "l2" "Files" "Second week" ["f1"]]
    [kata; handout]
    [ada; ada2; bob; snape]
    [adaEntry]
    []
    [].

(** ** CourseController: adding, updating and deleting courses *)

Definition setCourseAdmin (c : ICourse.t) (admin : ObjectId) : ICourse.t :=
  ICourse.mk (ICourse._id c) (ICourse.name c) (ICourse.description c)
    (ICourse.active c) (ICourse.enrollType c) (ICourse.accessKey c)
    (ICourse.whitelist c) admin (ICourse.teachers c) (ICourse.students c)
    (ICourse.lectures c).

Fixpoint findCourseByName (name : string) (cs : list ICourse.t)
  : option ICourse.t :=
  match cs with
  | [] => None
  | c :: cs' =>
      if (ICourse.name c =? name)%string then Some c
      else findCourseByName name cs'
  end.

(** [Course.findOne({name: name})]. *)
Definition Course_findOne_name (name : string) : Promise (option ICourse.t) :=
  fun w => (Fulfilled (findCourseByName name (Courses w)), w).

(** [new Course(course).save()], with [c] the document the constructor
    has made of the body: it joins the collection under the [_id] the
    constructor has given it. *)
Definition Course_create (c : ICourse.t) : Promise ICourse.t :=
  fun w => (Fulfilled c, setCourses w (Courses w ++ [c])).

(** [addCourse]; the first line is the assignment
    [course.courseAdmin = currentUser]. *)
Definition addCourse (course : ICourse.t) (currentUser : IUser.t)
  : Promise ICourse.t :=
  let course := setCourseAdmin course (IUser._id currentUser) in
  existingCourse <- Course_findOne_name (ICourse.name course) ;;
  match existingCourse with
  | Some _ => throw (BadRequestError course_duplicateName)
  | None =>
      c <- Course_create course ;;
      resolve c
  end.

Module CoursePatch.
(** The body of [PUT /:id]: the fields it carries are [Some], and the
    update sets exactly those.  A body can set [accessKey] to [null]. *)
Record t := mk {
  name : option string;
  description : option string;
  active : option bool;
  enrollType : option string;
  accessKey : option (option string);
  whitelist : option (list ObjectId);
  courseAdmin : option ObjectId;
  teachers : option (list ObjectId);
  students : option (list ObjectId);
  lectures : option (list ObjectId)
}.

Definition orKeep {A} (v : option A) (old : A) : A :=
  match v with
  | Some a => a
  | None => old
  end.

Definition apply (p : t) (c : ICourse.t) : ICourse.t :=
  ICourse.mk (ICourse._id c)
    (orKeep (name p) (ICourse.name c))
    (orKeep (description p) (ICourse.description c))
    (orKeep (active p) (ICourse.active c))
    (orKeep (enrollType p) (ICourse.enrollType c))
    (orKeep (accessKey p) (ICourse.accessKey c))
    (orKeep (whitelist p) (ICourse.whitelist c))
    (orKeep (courseAdmin p) (ICourse.courseAdmin c))
    (orKeep (teachers p) (ICourse.teachers c))
    (orKeep (students p) (ICourse.students c))
    (orKeep (lectures p) (ICourse.lectures c)).
End CoursePatch.

(** [Course.findOneAndUpdate(conditions, doc, {'new': true})]: the first
    document that matches is updated, and the updated document is the
    value; no match gives [null] and changes nothing. *)
Definition Course_findOneAndUpdate (conditions : Conditions)
    (doc : CoursePatch.t) : Promise (option ICourse.t) :=
  fun w =>
    (Fulfilled
       (option_map (CoursePatch.apply doc)
          (find (matches conditions) (Courses w))),
     setCourses w
       (updateFirst (matches conditions) (CoursePatch.apply doc) (Courses w))).

(** [updateCourse]; [None] is the [undefined] of the last [then]. *)
Definition updateCourse (id : ObjectId) (course : CoursePatch.t)
    (currentUser : IUser.t) : Promise (option ICourse.t) :=
  let conditions :=
    if negb (IUser.role currentUser =? "admin")%string then
      mkConditions None
        (Some [teachers_has (IUser._id currentUser);
               courseAdmin_is (IUser._id currentUser)])
        (Some id)
    else mkConditions None None (Some id) in
  c <- Course_findOneAndUpdate conditions course ;;
  resolve c.

(** ** Handlers that throw more than the routing errors with a code *)

Inductive Exception :=
| ExHttp (e : HttpError)
| ExForbidden (message : string)      (* new ForbiddenError(message) *)
| ExBadRequest (message : string)     (* new BadRequestError(message) *)
| ExBadRequestOf (cause : Exception)  (* new BadRequestError(err) *)
| ExTypeError                         (* a property read off null *)
| ExFs (code : string).               (* an error thrown by fs *)

Definition Async (A : Type) : Type := World -> (A + Exception) * World.

Definition ret {A} (a : A) : Async A := fun w => (inl a, w).

Definition raise {A} (e : Exception) : Async A := fun w => (inr e, w).

Definition await {A B} (p : Async A) (f : A -> Async B) : Async B :=
  fun w =>
    match p w with
    | (inl a, w') => f a w'
    | (inr e, w') => (inr e, w')
    end.

(** [try { body } catch (error) { handler }]. *)
Definition tryCatch {A} (body : Async A) (handler : Exception -> Async A)
  : Async A :=
  fun w =>
    match body w with
    | (inl a, w') => (inl a, w')
    | (inr e, w') => handler e w'
    end.

Definition ofPromise {A} (p : Promise A) : Async A :=
  fun w =>
    match p w with
    | (Fulfilled a, w') => (inl a, w')
    | (Rejected e, w') => (inr (ExHttp e), w')
    end.

Notation "x <~ p ;; k" := (await p (fun x => k))
  (at level 61, p at next level, right associativity).

(** [User.findOne({_id: id})]. *)
Definition User_findOne (id : ObjectId) : Async (option IUser.t) :=
  fun w => (inl (findUser id (Users w)), w).

Section CourseRemoval.

(** The [pre('remove')] hooks of the course schema, which is declared
    outside the controllers. *)
Variable Course_preRemove : ICourse.t -> World -> World.

(** [course.remove()]. *)
Definition Course_remove (course : ICourse.t) : Async unit :=
  fun w =>
    let w1 := Course_preRemove course w in
    (inl tt,
     setCourses w1
       (filter (fun c => negb (ICourse._id c =? ICourse._id course)%string)
          (Courses w1))).

(** [deleteCourse]; the value [true] is the body [{result: true}].  The
    three tests of the condition are tried from left to right, and the
    second one reads [equals] off the looked-up [courseAdmin]. *)
Definition deleteCourse (id : ObjectId) (currentUser : IUser.t) : Async bool :=
  course <~ ofPromise (Course_findById id) ;;
  match course with
  | None => raise (ExHttp NotFoundError)
  | Some course =>
      courseAdmin <~ User_findOne (ICourse.courseAdmin course) ;;
      if negb (indexOf (ICourse.teachers course) (IUser._id currentUser) =? -1)
      then _ <~ Course_remove course ;; ret true
      else
        match courseAdmin with
        | None => raise ExTypeError
        | Some courseAdmin =>
            if (IUser._id courseAdmin =? IUser._id currentUser)%string
               || (IUser.role currentUser =? "admin")%string
            then _ <~ Course_remove course ;; ret true
            else raise (ExForbidden "Forbidden!")
        end
  end.

End CourseRemoval.

(** ** Upload names *)

Fixpoint lastIndexOfFrom (s : string) (c : ascii) (i acc : Z) : Z :=
  match s with
  | EmptyString => acc
  | String a s' =>
      lastIndexOfFrom s' c (i + 1) (if Ascii.eqb a c then i else acc)
  end.

(** [String.prototype.lastIndexOf] for a one-character search string:
    the position of the last occurrence, [-1] if there is none. *)
Definition lastIndexOf (s : string) (c : ascii) : Z := lastIndexOfFrom s c 0 (-1).

Fixpoint dropChars (n : nat) (s : string) : string :=
  match n, s with
  | O, _ => s
  | S n', String _ s' => dropChars n' s'
  | S _, EmptyString => EmptyString
  end.

(** [String.prototype.substr(start)]: the rest of the string from [start]
    on; a negative [start] counts from the end. *)
Definition substr (s : string) (start : Z) : string :=
  let len := Z.of_nat (String.length s) in
  dropChars (Z.to_nat (if start <? 0 then Z.max (len + start) 0 else start)) s.

Definition hexDigit (n : nat) : ascii :=
  nth n ["0"; "1"; "2"; "3"; "4"; "5"; "6"; "7"; "8"; "9";
         "a"; "b"; "c"; "d"; "e"; "f"]%char "0"%char.

(** [Buffer.prototype.toString('hex')]: two digits per byte. *)
Fixpoint toHex (raw : list ascii) : string :=
  match raw with
  | [] => EmptyString
  | b :: raw' =>
      String (hexDigit (nat_of_ascii b / 16))
        (String (hexDigit (nat_of_ascii b mod 16)) (toHex raw'))
  end.

Section UploadNames.

Variable toLowerCase : string -> string.

(** The constant [ext] of the [filename] option of both controllers. *)
Definition uploadExt (originalname : string) : string :=
  let extPos := lastIndexOf originalname "."%char in
  if negb (extPos =? -1)
  then String "."%char (toLowerCase (substr originalname (extPos + 1)))
  else EmptyString.

(** The [filename] option handed to [multer.diskStorage]: [random] is
    what [crypto.pseudoRandomBytes] calls back with, an error or the
    bytes, and the value is the pair of arguments given to [cb]. *)
Definition uploadFilename (originalname : string)
    (random : Exception + list ascii) : option Exception * option string :=
  let ext := uploadExt originalname in
  match random with
  | inr raw => (None, Some (toHex raw ++ ext)%string)
  | inl err => (Some err, None)
  end.

End UploadNames.

(** ** UnitController: uploads and lectures *)

Module MulterFile.
(** The file object multer attaches to a request. *)
Record t := mk {
  path : string;
  filename : string;
  originalname : string;
  size : Z
}.
End MulterFile.

Module FileUnitBody.
(** The unit object of a request body; [files = None] is a body without
    a [files] property. *)
Record t := mk {
  name : string;
  description : string;
  _course : ObjectId;
  fileUnitType : string;
  files : option (list IFile.t)
}.

Definition setFiles (u : t) (fs : list IFile.t) : t :=
  mk (name u) (description u) (_course u) (fileUnitType u) (Some fs).

Definition filesOf (u : t) : list IFile.t :=
  match files u with
  | Some fs => fs
  | None => []
  end.
End FileUnitBody.

Definition handleUploadedFile (file : MulterFile.t) (unit : FileUnitBody.t)
  : FileUnitBody.t :=
  let unit :=
    match FileUnitBody.files unit with
    | None => FileUnitBody.setFiles unit []
    | Some _ => unit
    end in
  FileUnitBody.setFiles unit
    (push (FileUnitBody.filesOf unit)
       (IFile.mk (MulterFile.path file) (MulterFile.filename file)
          (MulterFile.originalname file) (MulterFile.size file))).

(** [Lecture.findById(id)]. *)
Definition Lecture_findById (id : ObjectId)
  : Async (option (ILecture.t ObjectId)) :=
  fun w => (inl (findLecture id (Lectures w)), w).

Fixpoint replaceLecture (l : ILecture.t ObjectId)
    (ls : list (ILecture.t ObjectId)) : list (ILecture.t ObjectId) :=
  match ls with
  | [] => []
  | l' :: ls' =>
      if (ILecture._id l' =? ILecture._id l)%string then l :: ls'
      else l' :: replaceLecture l ls'
  end.

(** [lecture.save()] of a document that was loaded from the collection. *)
Definition Lecture_save (l : ILecture.t ObjectId) : Async unit :=
  fun w => (inl tt, setLectures w (replaceLecture l (Lectures w))).

(** [pushToLecture]: a lecture that is not found is [null], and the push
    on it throws inside the chain. *)
Definition pushToLecture (lectureId : ObjectId) (unit : IUnit.t)
  : Async IUnit.t :=
  tryCatch
    (lecture <~ Lecture_findById lectureId ;;
     match lecture with
     | None => raise ExTypeError
     | Some lecture =>
         _ <~ Lecture_save
                (ILecture.setUnits lecture
                   (push (ILecture.units lecture) (IUnit._id unit))) ;;
         ret unit
     end)
    (fun err => raise (ExBadRequestOf err)).

(** Truthiness of a body value. *)
Definition isTruthy (v : JsValue) : bool :=
  match v with
  | JsUndefined | JsNull => false
  | JsBoolean b => b
  | JsNumber n => negb (n =? 0)
  | JsString s => negb (s =? EmptyString)%string
  | JsObject => true
  end.

(** What [data.model] can be: a falsy value, a truthy value that is no
    object, or an object with its [_course]. *)
Inductive ModelValue :=
| ModelFalsy
| ModelPrimitive
| ModelObject (_course : JsValue).

(** The [data] of [POST /units]: [null], or a value with its [lectureId]
    and [model] (both [undefined] on a value that is no object). *)
Inductive PostData :=
| DataNull
| DataObject (lectureId : JsValue) (model : ModelValue).

(** [fs.unlinkSync(path)]: throws when the file does not exist. *)
Definition fs_unlinkSync (path : string) : Async unit :=
  fun w =>
    if existsb (String.eqb path) (disk w)
    then (inl tt, setDisk w (removePath path (disk w)))
    else (inr (ExFs "ENOENT"), w).

Definition checkPostParam (data : PostData) (file : option MulterFile.t)
  : Async unit :=
  tryCatch
    (match data with
     | DataNull => raise ExTypeError
     | DataObject lectureId model =>
         _ <~ (if negb (isTruthy lectureId)
               then raise (ExBadRequest "No lecture ID was submitted.")
               else ret tt) ;;
         _ <~ (match model with
               | ModelFalsy => raise (ExBadRequest "No unit was submitted.")
               | _ => ret tt
               end) ;;
         match model with
         | ModelObject _course =>
             if negb (isTruthy _course)
             then raise (ExBadRequest "Unit has no _course set")
             else ret tt
         | _ => raise (ExBadRequest "Unit has no _course set")
         end
     end)
    (fun error =>
       match file with
       | Some file =>
           _ <~ fs_unlinkSync (MulterFile.path file) ;;
           raise error
       | None => raise error
       end).

(** More of the sample world. *)

Definition upload : MulterFile.t :=
  MulterFile.mk "uploads/cc.pdf" "cc.pdf" "Exam.PDF" 30.

Definition handoutBody (files : option (list IFile.t)) : FileUnitBody.t :=
  FileUnitBody.mk "Handout" "Reading" "c1" "file" files.

Definition newCourse : ICourse.t :=
  ICourse.mk "c2" "Potions" "Brewing" true "free" None [] "u3" [] [] [].

(** Whom the read conditions let read a course. *)
Definition mayRead (u : IUser.t) (c : ICourse.t) : Prop :=
  if (IUser.role u =? "admin")%string then True
  else if (IUser.role u =? "student")%string then
    ICourse.active c = true /\ In (IUser._id u) (ICourse.students c)
  else
    In (IUser._id u) (ICourse.teachers c)
    \/ ICourse.courseAdmin c = IUser._id u.

(** A course anybody may see in the overview. *)
Definition openToAll (c : ICourse.t) : Prop :=
  ICourse.enrollType c = "free" \/ ICourse.enrollType c = "accesskey".

(** Whether a character occurs in a string. *)
Fixpoint occurs (c : ascii) (s : string) : bool :=
  match s with
  | EmptyString => false
  | String a s' => Ascii.eqb a c || occurs c s'
  end.

(** * Properties *)

(** ** Arrays *)

Lemma indexOfFrom_range (xs : list ObjectId) (x : ObjectId) (i : Z) :
  indexOfFrom xs x i = -1
  \/ i <= indexOfFrom xs x i < i + Z.of_nat (length xs).
Proof.
  revert i; induction xs as [|y ys IH]; intros i; simpl.
  - now left.
  - destruct (String.eqb_spec y x).
    + right; lia.
    + destruct (IH (i + 1)) as [E|E]; [now left | right; lia].
Qed.

Lemma indexOfFrom_absent (xs : list ObjectId) (x : ObjectId) (i : Z) :
  0 <= i -> (indexOfFrom xs x i < 0 <-> ~ In x xs).
Proof.
  revert i; induction xs as [|y ys IH]; intros i Hi; simpl.
  - split; [tauto | lia].
  - destruct (String.eqb_spec y x) as [->|Hne].
    + split; [lia | intros H; exfalso; apply H; now left].
    + rewrite IH by lia. tauto.
Qed.

Lemma indexOf_absent (xs : list ObjectId) (x : ObjectId) :
  (indexOf xs x <? 0) = true <-> ~ In x xs.
Proof.
  unfold indexOf. rewrite Z.ltb_lt. apply indexOfFrom_absent. lia.
Qed.

Lemma indexOf_present (xs : list ObjectId) (x : ObjectId) :
  (indexOf xs x <? 0) = false <-> In x xs.
Proof.
  destruct (indexOf xs x <? 0) eqn:E.
  - apply indexOf_absent in E. split; [discriminate | tauto].
  - split; [intros _ | reflexivity].
    destruct (in_dec string_dec x xs) as [H|H]; [exact H|].
    apply indexOf_absent in H. congruence.
Qed.

(** ** Persistence *)

Lemma findCourse_id (id : ObjectId) (cs : list ICourse.t) (c : ICourse.t) :
  findCourse id cs = Some c -> ICourse._id c = id.
Proof.
  induction cs as [|c' cs IH]; simpl; [discriminate|].
  destruct (String.eqb_spec (ICourse._id c') id); [|exact IH].
  intros [= <-]. assumption.
Qed.

Lemma findCourse_replace (id : ObjectId) (cs : list ICourse.t) (c0 c : ICourse.t) :
  findCourse id cs = Some c0 -> ICourse._id c = id ->
  findCourse id (replaceCourse c cs) = Some c.
Proof.
  intros Hf Hid. subst id.
  induction cs as [|c' cs IH]; simpl in *; [discriminate|].
  destruct (String.eqb_spec (ICourse._id c') (ICourse._id c)) as [E|E].
  - simpl. now rewrite String.eqb_refl.
  - simpl. destruct (String.eqb_spec (ICourse._id c') (ICourse._id c));
      [contradiction | auto].
Qed.

Lemma findCourse_map_setActive (b : bool) (id : ObjectId) (cs : list ICourse.t) :
  findCourse id (map (ICourse.setActive b) cs)
  = option_map (ICourse.setActive b) (findCourse id cs).
Proof.
  induction cs as [|c cs IH]; simpl; [reflexivity|].
  destruct (ICourse._id c =? id)%string; [reflexivity | exact IH].
Qed.

Lemma replaceCourse_map_setActive (b : bool) (c : ICourse.t) (cs : list ICourse.t) :
  replaceCourse (ICourse.setActive b c) (map (ICourse.setActive b) cs)
  = map (ICourse.setActive b) (replaceCourse c cs).
Proof.
  induction cs as [|c' cs IH]; simpl; [reflexivity|].
  destruct (ICourse._id c' =? ICourse._id c)%string; simpl; [reflexivity|].
  now rewrite IH.
Qed.

(** ** Enrollment *)

Lemma filter_none_existsb {A} (p : A -> bool) (xs : list A) :
  (Z.of_nat (length (filter p xs)) <=? 0) = negb (existsb p xs).
Proof.
  induction xs as [|x xs IH]; simpl; [reflexivity|].
  destruct (p x); simpl; [|exact IH].
  apply Z.leb_gt. lia.
Qed.

(** The membership step always fulfils with a course. *)
Lemma addStudent_fulfils (c : ICourse.t) (u : IUser.t) (w : World) :
  exists c', fst (addStudent c u w) = Fulfilled (Some c').
Proof.
  unfold addStudent, andThen, Course_save, resolve.
  destruct (indexOf _ _ <? 0); simpl; eauto.
Qed.

Section EnrollmentFacts.

Variable toLowerCase : string -> string.
Variable WhitelistUser_find :
  list IWhitelistUser.t -> list ObjectId -> list IWhitelistUser.t.

Local Abbreviation enroll := (enrollStudent toLowerCase WhitelistUser_find).

(** What the whitelist branch does: it looks the user up and then settles,
    without going on to the membership step. *)
Lemma enroll_whitelist (id : ObjectId) (data : EnrollData) (u : IUser.t)
    (w : World) (c : ICourse.t) :
  findCourse id (Courses w) = Some c ->
  ICourse.enrollType c = "whitelist" ->
  enroll id data u w =
    if existsb (onWhitelist toLowerCase u)
         (WhitelistUser_find (WhitelistUsers w) (ICourse.whitelist c))
    then (Fulfilled None, w)
    else (Rejected (ForbiddenError course_notOnWhitelist), w).
Proof.
  intros Hf Ht.
  unfold enrollStudent, andThen, Course_findById, WhitelistUser_find_course.
  rewrite Hf, Ht. simpl.
  rewrite filter_none_existsb.
  now destruct (existsb _ _).
Qed.

(** What every other enrollment type does: the key is compared whenever
    the course carries one. *)
Lemma enroll_keyed (id : ObjectId) (data : EnrollData) (u : IUser.t)
    (w : World) (c : ICourse.t) :
  findCourse id (Courses w) = Some c ->
  ICourse.enrollType c <> "whitelist" ->
  enroll id data u w =
    if truthy (ICourse.accessKey c)
       && strictNotEqual (ICourse.accessKey c) (accessKey data)
    then (Rejected (ForbiddenError course_accessKey), w)
    else addStudent c u w.
Proof.
  intros Hf Ht.
  unfold enrollStudent, andThen, Course_findById.
  rewrite Hf.
  destruct (String.eqb_spec (ICourse.enrollType c) "whitelist");
    [contradiction|].
  now destruct (truthy _ && strictNotEqual _ _).
Qed.

Lemma enroll_not_found (id : ObjectId) (data : EnrollData) (u : IUser.t)
    (w : World) :
  findCourse id (Courses w) = None ->
  enroll id data u w = (Rejected NotFoundError, w).
Proof.
  intros Hf. unfold enrollStudent, andThen, Course_findById. now rewrite Hf.
Qed.

(** The key rule in the words of the policy: a course without a key, or
    with the empty string for a key, asks for none; any other key has to
    be submitted as that very string. *)
Lemma enroll_key_rule (id : ObjectId) (data : EnrollData) (u : IUser.t)
    (w : World) (c : ICourse.t) :
  findCourse id (Courses w) = Some c ->
  ICourse.enrollType c <> "whitelist" ->
  (truthy (ICourse.accessKey c) = false ->
   enroll id data u w = addStudent c u w)
  /\ (forall k, ICourse.accessKey c = Some k -> k <> EmptyString ->
       (accessKey data = JsString k ->
        enroll id data u w = addStudent c u w)
       /\ (accessKey data <> JsString k ->
           enroll id data u w
           = (Rejected (ForbiddenError course_accessKey), w))).
Proof.
  intros Hf Ht. rewrite (enroll_keyed _ _ _ _ _ Hf Ht).
  split.
  - now intros ->.
  - intros k Hk Hne. rewrite Hk. simpl.
    destruct (String.eqb_spec k EmptyString) as [|_]; [contradiction|]. simpl.
    split.
    + intros ->. now rewrite String.eqb_refl.
    + intros Hd. destruct (accessKey data) as [| |b|n|s|]; try reflexivity.
      destruct (String.eqb_spec k s) as [->|]; [congruence | reflexivity].
Qed.

(** A rejected attempt has written nothing. *)
Lemma enroll_rejected_unchanged (id : ObjectId) (data : EnrollData)
    (u : IUser.t) (w : World) (e : HttpError) :
  fst (enroll id data u w) = Rejected e -> snd (enroll id data u w) = w.
Proof.
  destruct (findCourse id (Courses w)) as [c|] eqn:Hf.
  - destruct (String.eqb_spec (ICourse.enrollType c) "whitelist") as [Ht|Ht].
    + rewrite (enroll_whitelist _ _ _ _ _ Hf Ht). now destruct (existsb _ _).
    + rewrite (enroll_keyed _ _ _ _ _ Hf Ht).
      destruct (truthy _ && strictNotEqual _ _); [reflexivity|].
      destruct (addStudent_fulfils c u w) as [c' Hc']. congruence.
  - now rewrite (enroll_not_found _ _ _ _ Hf).
Qed.

(** The whitelist branch never writes to the course. *)
Lemma enroll_whitelist_unchanged (id : ObjectId) (data : EnrollData)
    (u : IUser.t) (w : World) (c : ICourse.t) :
  findCourse id (Courses w) = Some c ->
  ICourse.enrollType c = "whitelist" ->
  snd (enroll id data u w) = w
  /\ forall c', fst (enroll id data u w) <> Fulfilled (Some c').
Proof.
  intros Hf Ht. rewrite (enroll_whitelist _ _ _ _ _ Hf Ht).
  destruct (existsb _ _); split; try reflexivity; discriminate.
Qed.

(** C5: under [enrollType = accesskey], a course whose [accessKey] is unset
    (absent, or the empty string, which the guard [course.accessKey &&]
    treats alike) lets the request through to the membership step; a course
    whose [accessKey] is set lets it through exactly when the submitted key
    is that same string and rejects every other submission with the
    invalid-access-key error, writing nothing.  The membership step itself
    never rejects. *)
Theorem accesskey_course_compares_key (id : ObjectId) (data : EnrollData)
    (u : IUser.t) (w : World) (c : ICourse.t) :
  findCourse id (Courses w) = Some c ->
  ICourse.enrollType c = "accesskey" ->
  (truthy (ICourse.accessKey c) = false ->
   enroll id data u w = addStudent c u w)
  /\ (forall k, ICourse.accessKey c = Some k -> k <> EmptyString ->
       (accessKey data = JsString k ->
        enroll id data u w = addStudent c u w)
       /\ (accessKey data <> JsString k ->
           enroll id data u w
           = (Rejected (ForbiddenError course_accessKey), w)))
  /\ (forall e, fst (addStudent c u w) <> Rejected e).
Proof.
  intros Hf Ht.
  assert (Hw : ICourse.enrollType c <> "whitelist") by (rewrite Ht; discriminate).
  destruct (enroll_key_rule id data u w c Hf Hw) as [H1 H2].
  repeat split; try assumption.
  - now apply H2.
  - now apply H2.
  - intros e He. destruct (addStudent_fulfils c u w) as [c' Hc']. congruence.
Qed.

(** C4, as amended: under [enrollType = free] the stored key is compared all
    the same.  The request goes on to the membership step when the course
    has no key (absent or empty) or the submitted key equals it; when the
    course has a key and the submitted value differs, the request is
    rejected with the invalid-access-key error and nothing is written. *)
Theorem free_course_compares_stored_key (id : ObjectId) (data : EnrollData)
    (u : IUser.t) (w : World) (c : ICourse.t) :
  findCourse id (Courses w) = Some c ->
  ICourse.enrollType c = "free" ->
  (truthy (ICourse.accessKey c) = false ->
   enroll id data u w = addStudent c u w)
  /\ (forall k, ICourse.accessKey c = Some k -> k <> EmptyString ->
       (accessKey data = JsString k ->
        enroll id data u w = addStudent c u w)
       /\ (accessKey data <> JsString k ->
           enroll id data u w
           = (Rejected (ForbiddenError course_accessKey), w))).
Proof.
  intros Hf Ht. apply enroll_key_rule; [assumption|].
  rewrite Ht. discriminate.
Qed.

(** Enrolling a second time settles as the first time did and leaves the
    world as the first time left it. *)
Lemma enroll_twice (id : ObjectId) (data : EnrollData) (u : IUser.t)
    (w : World) :
  enroll id data u (snd (enroll id data u w)) = enroll id data u w.
Proof.
  destruct (findCourse id (Courses w)) as [c|] eqn:Hf.
  2:{ rewrite (enroll_not_found _ _ _ _ Hf). simpl.
      now rewrite (enroll_not_found _ _ _ _ Hf). }
  destruct (String.eqb_spec (ICourse.enrollType c) "whitelist") as [Ht|Ht].
  { destruct (enroll_whitelist_unchanged id data u w c Hf Ht) as [-> _].
    reflexivity. }
  rewrite (enroll_keyed _ _ _ _ _ Hf Ht).
  destruct (truthy _ && strictNotEqual _ _) eqn:Hk.
  { simpl. rewrite (enroll_keyed _ _ _ _ _ Hf Ht). now rewrite Hk. }
  unfold addStudent.
  destruct (indexOf _ _ <? 0) eqn:Hi.
  - unfold andThen, Course_save, resolve. simpl.
    set (c' := ICourse.setStudents c
                 (push (ICourse.students c) (IUser._id u))).
    set (w' := setCourses w (replaceCourse c' (Courses w))).
    assert (Hf' : findCourse id (Courses w') = Some c').
    { apply findCourse_replace with (c0 := c); [exact Hf|].
      exact (findCourse_id _ _ _ Hf). }
    rewrite (enroll_keyed id data u w' c' Hf' Ht).
    change (ICourse.accessKey c') with (ICourse.accessKey c). rewrite Hk.
    unfold addStudent.
    assert (Hp : (indexOf (ICourse.students c') (IUser._id u) <? 0) = false).
    { apply indexOf_present. unfold c', push. simpl.
      apply in_or_app. right. now left. }
    now rewrite Hp.
  - unfold resolve. simpl. rewrite (enroll_keyed _ _ _ _ _ Hf Ht), Hk.
    unfold addStudent. now rewrite Hi.
Qed.

(** What holds for a student whose id is already in [course.students]:
    the membership step answers with the course as it is stored and saves
    nothing, so the list keeps its entries and their order and gains no
    duplicate.  The whole operation leaves the world unchanged whatever the
    policy decides; on a course that does not go through the whitelist
    branch, and once the key is accepted, its answer is the stored course.
    Enrolling twice is the same as enrolling once, from any world. *)
Theorem enroll_already_member (id : ObjectId) (data : EnrollData)
    (u : IUser.t) (w : World) (c : ICourse.t) :
  findCourse id (Courses w) = Some c ->
  In (IUser._id u) (ICourse.students c) ->
  addStudent c u w = (Fulfilled (Some c), w)
  /\ snd (enroll id data u w) = w
  /\ (ICourse.enrollType c <> "whitelist" ->
      truthy (ICourse.accessKey c)
        && strictNotEqual (ICourse.accessKey c) (accessKey data) = false ->
      enroll id data u w = (Fulfilled (Some c), w))
  /\ (forall w0,
        enroll id data u (snd (enroll id data u w0)) = enroll id data u w0).
Proof.
  intros Hf Hin.
  assert (Ha : addStudent c u w = (Fulfilled (Some c), w)).
  { unfold addStudent. apply indexOf_present in Hin. now rewrite Hin. }
  split; [exact Ha|].
  split.
  - destruct (String.eqb_spec (ICourse.enrollType c) "whitelist") as [Ht|Ht].
    + now destruct (enroll_whitelist_unchanged id data u w c Hf Ht).
    + rewrite (enroll_keyed _ _ _ _ _ Hf Ht).
      destruct (truthy _ && strictNotEqual _ _); [reflexivity|].
      now rewrite Ha.
  - split.
    + intros Ht Hk. now rewrite (enroll_keyed _ _ _ _ _ Hf Ht), Hk.
    + intros w0. apply enroll_twice.
Qed.

(** No enrollment attempt removes a member. *)
Lemma enroll_keeps_members (id : ObjectId) (data : EnrollData) (u : IUser.t)
    (w : World) (c : ICourse.t) (s : ObjectId) :
  findCourse id (Courses w) = Some c ->
  In s (ICourse.students c) ->
  exists c', findCourse id (Courses (snd (enroll id data u w))) = Some c'
             /\ In s (ICourse.students c').
Proof.
  intros Hf Hin.
  destruct (String.eqb_spec (ICourse.enrollType c) "whitelist") as [Ht|Ht].
  { destruct (enroll_whitelist_unchanged id data u w c Hf Ht) as [-> _]. eauto. }
  rewrite (enroll_keyed _ _ _ _ _ Hf Ht).
  destruct (truthy _ && strictNotEqual _ _); [simpl; eauto|].
  unfold addStudent. destruct (indexOf _ _ <? 0); [|simpl; eauto].
  unfold andThen, Course_save, resolve. simpl.
  eexists. split.
  - apply findCourse_replace with (c0 := c); [exact Hf|].
    exact (findCourse_id _ _ _ Hf).
  - simpl. unfold push. apply in_or_app. now left.
Qed.

(** C3, as amended: the enroll operation never reads [course.active].  An
    attempt on a course settles the same way, and writes the same, whether
    the course is marked active or not, so an inactive course takes new
    members under the same policy as an active one.  A rejected attempt
    writes nothing, and no attempt removes an existing member. *)
Theorem enrollStudent_ignores_active (b : bool) (id : ObjectId)
    (data : EnrollData) (u : IUser.t) (w : World) :
  enroll id data u (mapCourses (ICourse.setActive b) w)
  = (mapSettled (option_map (ICourse.setActive b)) (fst (enroll id data u w)),
     mapCourses (ICourse.setActive b) (snd (enroll id data u w)))
  /\ (forall e, fst (enroll id data u w) = Rejected e ->
                snd (enroll id data u w) = w)
  /\ (forall c s, findCourse id (Courses w) = Some c ->
                  In s (ICourse.students c) ->
                  exists c',
                    findCourse id (Courses (snd (enroll id data u w))) = Some c'
                    /\ In s (ICourse.students c')).
Proof.
  split; [|split; [apply enroll_rejected_unchanged
                  | intros c s; apply enroll_keeps_members]].
  set (f := ICourse.setActive b).
  assert (Hm : findCourse id (Courses (mapCourses f w))
               = option_map f (findCourse id (Courses w)))
    by apply findCourse_map_setActive.
  destruct (findCourse id (Courses w)) as [c|] eqn:Hf; cbn [option_map] in Hm.
  2:{ now rewrite (enroll_not_found _ _ _ _ Hf), (enroll_not_found _ _ _ _ Hm). }
  destruct (String.eqb_spec (ICourse.enrollType c) "whitelist") as [Ht|Ht].
  { rewrite (enroll_whitelist _ _ _ _ _ Hf Ht).
    rewrite (enroll_whitelist _ _ _ _ _ Hm Ht). simpl.
    now destruct (existsb _ _). }
  rewrite (enroll_keyed _ _ _ _ _ Hf Ht).
  rewrite (enroll_keyed id data u _ (f c) Hm Ht).
  change (ICourse.accessKey (f c)) with (ICourse.accessKey c).
  destruct (truthy _ && strictNotEqual _ _); [reflexivity|].
  unfold addStudent.
  change (ICourse.students (f c)) with (ICourse.students c).
  destruct (indexOf _ _ <? 0); [|reflexivity].
  unfold andThen, Course_save, resolve, mapCourses, setCourses. simpl.
  f_equal. f_equal.
  apply (replaceCourse_map_setActive b
           (ICourse.setStudents c (push (ICourse.students c) (IUser._id u)))).
Qed.

End EnrollmentFacts.

(** ** Enrollment on the sample course *)

(** C1: the course admits by whitelist and holds the entry
    (ada, lovelace, al1); the student Ada Lovelace with uid al1 matches it.
    The operation fulfils with [undefined] and the course is left without
    her, where the membership step would have stored her id.  The student
    with the same name and uid al2 is rejected as not on the whitelist. *)
Theorem whitelisted_student_is_not_enrolled :
  let c := sampleCourse "whitelist" true None [] in
  let w := sampleWorld c in
  existsb (onWhitelist asciiToLowerCase ada)
    (whitelistByRefs (WhitelistUsers w) (ICourse.whitelist c)) = true
  /\ enrollAscii "c1" noKey ada w = (Fulfilled None, w)
  /\ studentsOf "c1" (snd (enrollAscii "c1" noKey ada w)) = Some []
  /\ studentsOf "c1" (snd (addStudent c ada w)) = Some ["u1"]
  /\ enrollAscii "c1" noKey ada2 w
     = (Rejected (ForbiddenError course_notOnWhitelist), w).
Proof. repeat split. Qed.

(** C3, the claim refuted: the sample course is inactive and open; Ada's
    attempt is fulfilled, not rejected, and her id is stored after Bob's. *)
Lemma inactive_course_enrolls_student :
  let c := sampleCourse "free" false None ["u3"] in
  let w := sampleWorld c in
  ICourse.active c = false
  /\ fst (enrollAscii "c1" noKey ada w)
     = Fulfilled (Some (sampleCourse "free" false None ["u3"; "u1"]))
  /\ studentsOf "c1" w = Some ["u3"]
  /\ studentsOf "c1" (snd (enrollAscii "c1" noKey ada w)) = Some ["u3"; "u1"].
Proof. repeat split. Qed.

Lemma enrollStudent_ignores_active_witness :
  let c := sampleCourse "free" true None ["u3"] in
  let w := sampleWorld c in
  findCourse "c1" (Courses w) = Some c
  /\ In "u3" (ICourse.students c)
  /\ enrollAscii "c1" noKey ada (mapCourses (ICourse.setActive false) w)
     = (Fulfilled (Some (sampleCourse "free" false None ["u3"; "u1"])),
        sampleWorld (sampleCourse "free" false None ["u3"; "u1"]))
  /\ exists c',
       findCourse "c1" (Courses (snd (enrollAscii "c1" noKey ada w))) = Some c'
       /\ In "u3" (ICourse.students c').
Proof.
  intros c w.
  destruct (enrollStudent_ignores_active asciiToLowerCase whitelistByRefs
              false "c1" noKey ada w) as (H1 & _ & H3).
  split; [reflexivity|].
  split; [now left|].
  split.
  - rewrite H1. reflexivity.
  - apply (H3 c "u3"); [reflexivity | now left].
Defined.

(** C4, the claim refuted: the sample course is open and carries the key
    s3cr3t; a request that submits another key, or none, is rejected with
    the invalid-access-key error. *)
Lemma free_course_rejects_wrong_key :
  let c := sampleCourse "free" true (Some "s3cr3t") [] in
  let w := sampleWorld c in
  ICourse.enrollType c = "free"
  /\ enrollAscii "c1" (mkData (JsString "wrong")) ada w
     = (Rejected (ForbiddenError course_accessKey), w)
  /\ enrollAscii "c1" noKey ada w
     = (Rejected (ForbiddenError course_accessKey), w)
  /\ fst (enrollAscii "c1" (mkData (JsString "wrong")) ada w)
     <> fst (addStudent c ada w).
Proof. repeat split. discriminate. Qed.

Lemma free_course_compares_stored_key_witness :
  let open := sampleCourse "free" true None [] in
  let keyed := sampleCourse "free" true (Some "s3cr3t") [] in
  enrollAscii "c1" (mkData (JsString "anything")) ada (sampleWorld open)
  = addStudent open ada (sampleWorld open)
  /\ enrollAscii "c1" (mkData (JsString "s3cr3t")) ada (sampleWorld keyed)
     = addStudent keyed ada (sampleWorld keyed)
  /\ enrollAscii "c1" (mkData JsNull) ada (sampleWorld keyed)
     = (Rejected (ForbiddenError course_accessKey), sampleWorld keyed).
Proof.
  intros open keyed.
  split.
  - apply (free_course_compares_stored_key asciiToLowerCase whitelistByRefs
             "c1" (mkData (JsString "anything")) ada (sampleWorld open) open
             eq_refl eq_refl).
    reflexivity.
  - split.
    + apply (free_course_compares_stored_key asciiToLowerCase whitelistByRefs
               "c1" (mkData (JsString "s3cr3t")) ada (sampleWorld keyed) keyed
               eq_refl eq_refl) with (k := "s3cr3t");
        [reflexivity | discriminate | reflexivity].
    + apply (free_course_compares_stored_key asciiToLowerCase whitelistByRefs
               "c1" (mkData JsNull) ada (sampleWorld keyed) keyed
               eq_refl eq_refl) with (k := "s3cr3t");
        [reflexivity | discriminate | discriminate].
Defined.

Lemma accesskey_course_compares_key_witness :
  let c := sampleCourse "accesskey" true (Some "s3cr3t") [] in
  let w := sampleWorld c in
  findCourse "c1" (Courses w) = Some c
  /\ ICourse.enrollType c = "accesskey"
  /\ enrollAscii "c1" (mkData (JsString "s3cr3t")) ada w = addStudent c ada w
  /\ studentsOf "c1" (snd (enrollAscii "c1" (mkData (JsString "s3cr3t")) ada w))
     = Some ["u1"]
  /\ enrollAscii "c1" (mkData (JsString "wrong")) ada w
     = (Rejected (ForbiddenError course_accessKey), w).
Proof.
  intros c w.
  pose proof (accesskey_course_compares_key asciiToLowerCase whitelistByRefs
                "c1" (mkData (JsString "s3cr3t")) ada w c eq_refl eq_refl)
    as (_ & Hgood & _).
  pose proof (accesskey_course_compares_key asciiToLowerCase whitelistByRefs
                "c1" (mkData (JsString "wrong")) ada w c eq_refl eq_refl)
    as (_ & Hbad & _).
  split; [reflexivity|]. split; [reflexivity|].
  split; [|split].
  - apply (Hgood "s3cr3t"); [reflexivity | discriminate | reflexivity].
  - reflexivity.
  - apply (Hbad "s3cr3t"); [reflexivity | discriminate | discriminate].
Defined.

Lemma enroll_already_member_witness :
  let c := sampleCourse "free" true None ["u3"; "u1"; "u2"] in
  let w := sampleWorld c in
  findCourse "c1" (Courses w) = Some c
  /\ In (IUser._id ada) (ICourse.students c)
  /\ enrollAscii "c1" noKey ada w = (Fulfilled (Some c), w)
  /\ studentsOf "c1" (snd (enrollAscii "c1" noKey ada w))
     = Some ["u3"; "u1"; "u2"].
Proof.
  intros c w.
  assert (Hin : In (IUser._id ada) (ICourse.students c))
    by (right; left; reflexivity).
  destruct (enroll_already_member asciiToLowerCase whitelistByRefs
              "c1" noKey ada w c eq_refl Hin) as (_ & Hw & He & _).
  split; [reflexivity|]. split; [exact Hin|].
  split.
  - apply He; [discriminate | reflexivity].
  - rewrite Hw. reflexivity.
Defined.

(** C6: the course admits by whitelist, holds the entry
    (ada, lovelace, al1), and Ada Lovelace with uid al1 is already one of
    its students.  Her request passes the whitelist check, and the answer
    is [undefined], where the membership step answers with the stored
    course; the early return of the whitelist branch keeps the request
    from that step.  The list of students is left as it was. *)
Theorem whitelisted_member_is_answered_undefined :
  let c := sampleCourse "whitelist" true None ["u3"; "u1"] in
  let w := sampleWorld c in
  In (IUser._id ada) (ICourse.students c)
  /\ existsb (onWhitelist asciiToLowerCase ada)
       (whitelistByRefs (WhitelistUsers w) (ICourse.whitelist c)) = true
  /\ enrollAscii "c1" noKey ada w = (Fulfilled None, w)
  /\ addStudent c ada w = (Fulfilled (Some c), w)
  /\ fst (enrollAscii "c1" noKey ada w) <> fst (addStudent c ada w)
  /\ studentsOf "c1" (snd (enrollAscii "c1" noKey ada w)) = Some ["u3"; "u1"].
Proof.
  repeat split.
  - right. left. reflexivity.
  - discriminate.
Qed.

(** ** Leaving a course *)

Lemma indexOfFrom_app (xs ys : list ObjectId) (x : ObjectId) (i : Z) :
  ~ In x xs ->
  indexOfFrom (xs ++ x :: ys) x i = i + Z.of_nat (length xs).
Proof.
  revert i; induction xs as [|y xs IH]; intros i Hn; simpl.
  - rewrite String.eqb_refl. lia.
  - destruct (String.eqb_spec y x) as [->|_].
    + exfalso. apply Hn. now left.
    + rewrite IH; [lia|]. intros H. apply Hn. now right.
Qed.

Lemma splice_one_at {A} (xs ys : list A) (y : A) :
  splice (xs ++ y :: ys) (Z.of_nat (length xs)) 1 = xs ++ ys.
Proof.
  unfold splice. rewrite length_app. simpl length.
  destruct (Z.ltb_spec (Z.of_nat (length xs)) 0); [lia|].
  rewrite Z.min_l by lia.
  replace (Z.min (Z.max 1 0) _) with 1 by lia.
  rewrite Nat2Z.id.
  replace (Z.to_nat (Z.of_nat (length xs) + 1)) with (length xs + 1)%nat by lia.
  rewrite firstn_app, Nat.sub_diag, firstn_all. simpl firstn.
  rewrite app_nil_r. f_equal.
  rewrite skipn_app, skipn_all2 by lia. simpl.
  replace (length xs + 1 - length xs)%nat with 1%nat by lia. reflexivity.
Qed.

Lemma splice_last {A} (xs : list A) (y : A) :
  splice (xs ++ [y]) (-1) 1 = xs.
Proof.
  unfold splice. rewrite length_app. simpl length.
  change (-1 <? 0) with true. cbv iota.
  replace (Z.max (Z.of_nat (length xs + 1) + -1) 0)
    with (Z.of_nat (length xs)) by lia.
  replace (Z.min (Z.max 1 0) _) with 1 by lia.
  rewrite Nat2Z.id.
  replace (Z.to_nat (Z.of_nat (length xs) + 1)) with (length (xs ++ [y]))
    by (rewrite length_app; simpl; lia).
  rewrite skipn_all, firstn_app, Nat.sub_diag, firstn_all. simpl.
  now rewrite !app_nil_r.
Qed.

(** A member who is not the first of the list is taken out of it, and
    nobody else is. *)
Lemma leaveStudent_later_member (id : ObjectId) (data : EnrollData)
    (u : IUser.t) (w : World) (c : ICourse.t) (xs ys : list ObjectId) :
  findCourse id (Courses w) = Some c ->
  ICourse.students c = xs ++ IUser._id u :: ys ->
  xs <> [] -> ~ In (IUser._id u) xs ->
  studentsOf id (snd (leaveStudent id data u w)) = Some (xs ++ ys).
Proof.
  intros Hf Hs Hne Hn.
  unfold leaveStudent, andThen, Course_findById. rewrite Hf.
  cbv zeta. rewrite Hs. unfold indexOf. rewrite indexOfFrom_app by exact Hn.
  destruct xs as [|x xs]; [contradiction|].
  destruct (Z.eqb_spec (0 + Z.of_nat (length (x :: xs))) 0) as [E|_];
    [simpl length in E; lia|].
  simpl negb. cbv iota.
  rewrite Z.add_0_l, splice_one_at.
  unfold Course_save, resolve, studentsOf. simpl snd. simpl Courses.
  erewrite findCourse_replace; [reflexivity | exact Hf |].
  exact (findCourse_id _ _ _ Hf).
Qed.

(** A member who is the first of the list stays in it. *)
Lemma leaveStudent_first_member (id : ObjectId) (data : EnrollData)
    (u : IUser.t) (w : World) (c : ICourse.t) (ys : list ObjectId) :
  findCourse id (Courses w) = Some c ->
  ICourse.students c = IUser._id u :: ys ->
  leaveStudent id data u w = (Fulfilled c, w).
Proof.
  intros Hf Hs.
  unfold leaveStudent, andThen, Course_findById. rewrite Hf.
  cbv zeta. rewrite Hs. unfold indexOf. cbn [indexOfFrom].
  now rewrite String.eqb_refl.
Qed.

(** When the acting user is not a member, the last member is taken out. *)
Lemma leaveStudent_not_member (id : ObjectId) (data : EnrollData)
    (u : IUser.t) (w : World) (c : ICourse.t) (xs : list ObjectId)
    (y : ObjectId) :
  findCourse id (Courses w) = Some c ->
  ICourse.students c = xs ++ [y] ->
  ~ In (IUser._id u) (ICourse.students c) ->
  studentsOf id (snd (leaveStudent id data u w)) = Some xs.
Proof.
  intros Hf Hs Hn.
  unfold leaveStudent, andThen, Course_findById. rewrite Hf.
  cbv zeta.
  assert (Hi : indexOf (ICourse.students c) (IUser._id u) = -1).
  { unfold indexOf.
    destruct (indexOfFrom_range (ICourse.students c) (IUser._id u) 0)
      as [E|E]; [exact E|].
    exfalso. apply (indexOfFrom_absent _ _ 0) in Hn; lia. }
  rewrite Hi. simpl negb. cbv iota. rewrite Hs, splice_last.
  unfold Course_save, resolve, studentsOf. simpl snd. simpl Courses.
  erewrite findCourse_replace; [reflexivity | exact Hf |].
  exact (findCourse_id _ _ _ Hf).
Qed.

(** C2: on the sample course with the members Ada and Bob, in this order,
    Ada's request to leave is answered with success and she is still a
    member; the request of a user who is no member takes Bob, the last
    member, out of the list.  Bob's own request does remove him. *)
Theorem leaveStudent_keeps_first_and_drops_last :
  let c := sampleCourse "free" true None ["u1"; "u3"] in
  let w := sampleWorld c in
  leaveStudent "c1" noKey ada w = (Fulfilled c, w)
  /\ studentsOf "c1" (snd (leaveStudent "c1" noKey ada w)) = Some ["u1"; "u3"]
  /\ ~ In (IUser._id ada2) (ICourse.students c)
  /\ fst (leaveStudent "c1" noKey ada2 w)
     = Fulfilled (sampleCourse "free" true None ["u1"])
  /\ studentsOf "c1" (snd (leaveStudent "c1" noKey ada2 w)) = Some ["u1"]
  /\ studentsOf "c1" (snd (leaveStudent "c1" noKey bob w)) = Some ["u1"].
Proof.
  repeat split.
  simpl. intros [H|[H|[]]]; discriminate.
Qed.

(** ** Files of a unit *)

Lemma fs_unlink_calls (p : string) (w : World) :
  unlinkCalls (fs_unlink p discard w) = unlinkCalls w ++ [p].
Proof. reflexivity. Qed.

(** Deleting files leaves every collection as it is. *)
Lemma forEach_unlink_collections (sel : IFile.t -> bool) (fs : list IFile.t)
    (w : World) :
  let w' :=
    forEach fs
      (fun file w0 =>
         if sel file then fs_unlink (IFile.path file) discard w0 else w0) w in
  Courses w' = Courses w /\ Lectures w' = Lectures w /\ Units w' = Units w
  /\ Users w' = Users w /\ WhitelistUsers w' = WhitelistUsers w.
Proof.
  unfold forEach. revert w.
  induction fs as [|f fs IH]; intros w; simpl; [tauto|].
  destruct (IH (if sel f then fs_unlink (IFile.path f) discard w else w))
    as (H1 & H2 & H3 & H4 & H5).
  rewrite H1, H2, H3, H4, H5. now destruct (sel f).
Qed.

(** The calls a [forEach] makes: one per selected file, in the order of the
    list, whatever is on the disk. *)
Lemma forEach_unlink_calls (sel : IFile.t -> bool) (fs : list IFile.t)
    (w : World) :
  unlinkCalls
    (forEach fs
       (fun file w0 =>
          if sel file then fs_unlink (IFile.path file) discard w0 else w0) w)
  = unlinkCalls w ++ map IFile.path (filter sel fs).
Proof.
  unfold forEach. revert w.
  induction fs as [|f fs IH]; intros w; simpl.
  - now rewrite app_nil_r.
  - rewrite IH. destruct (sel f); [|reflexivity].
    simpl. now rewrite <- app_assoc.
Qed.

Lemma count_occ_path_filter (sel : IFile.t -> bool) (fs : list IFile.t)
    (file : IFile.t) :
  NoDup (map IFile.path fs) -> In file fs ->
  count_occ string_dec (map IFile.path (filter sel fs)) (IFile.path file)
  = if sel file then 1%nat else 0%nat.
Proof.
  assert (Hout : forall gs p, ~ In p (map IFile.path gs) ->
            count_occ string_dec (map IFile.path (filter sel gs)) p = 0%nat).
  { intros gs p Hn. apply count_occ_not_In. intros H. apply Hn.
    apply in_map_iff in H as (g & <- & Hg). apply filter_In in Hg.
    apply in_map. tauto. }
  induction fs as [|f fs IH]; intros Hnd Hin; [contradiction|].
  simpl in Hnd. inversion Hnd as [|? ? Hf Hnd']; subst.
  destruct Hin as [->|Hin].
  - simpl. destruct (sel file); simpl.
    + destruct (string_dec (IFile.path file) (IFile.path file)); [|congruence].
      now rewrite Hout.
    + now apply Hout.
  - assert (Hne : IFile.path f <> IFile.path file).
    { intros E. apply Hf. rewrite E. now apply in_map. }
    simpl. destruct (sel f); simpl.
    + destruct (string_dec (IFile.path f) (IFile.path file)); [contradiction|].
      now apply IH.
    + now apply IH.
Qed.

(** C8: storing a new list in [files] hands the new list back as the value
    to store and calls [fs.unlink] once for every stored file record whose
    name no entry of the new list carries, in the order of the old list,
    and for no other record; when the stored paths are pairwise different,
    each dropped path is unlinked exactly once and each retained path not at
    all.  The world [w] is arbitrary: the calls and the value are the same
    when none of the files exists, and the setter has no failure to hand on.
    The collections are not touched. *)
Theorem setFiles_unlinks_dropped_files (this : IUnit.t)
    (newFiles : list IFile.t) (w : World) :
  let dropped := fun file : IFile.t =>
    negb (some (fun newFile => (IFile.name newFile =? IFile.name file)%string)
            newFiles) in
  let r := FileUnit_setFiles this newFiles w in
  fst r = newFiles
  /\ unlinkCalls (snd r)
     = unlinkCalls w ++ map IFile.path (filter dropped (IUnit.files this))
  /\ (NoDup (map IFile.path (IUnit.files this)) ->
      forall file, In file (IUnit.files this) ->
        count_occ string_dec
          (map IFile.path (filter dropped (IUnit.files this)))
          (IFile.path file)
        = if dropped file then 1%nat else 0%nat)
  /\ Units (snd r) = Units w /\ Lectures (snd r) = Lectures w
  /\ Courses (snd r) = Courses w.
Proof.
  intros dropped r. subst r. unfold FileUnit_setFiles. simpl fst. simpl snd.
  split; [reflexivity|].
  split; [apply (forEach_unlink_calls dropped)|].
  split; [intros Hnd file Hin; now apply count_occ_path_filter|].
  destruct (forEach_unlink_collections dropped (IUnit.files this) w)
    as (H1 & H2 & H3 & _).
  auto.
Qed.

Lemma setFiles_unlinks_dropped_files_witness :
  let w := sampleWorld (sampleCourse "free" true None []) in
  let r := FileUnit_setFiles handout [notes] w in
  NoDup (map IFile.path (IUnit.files handout))
  /\ In slides (IUnit.files handout) /\ In notes (IUnit.files handout)
  /\ fst r = [notes]
  /\ unlinkCalls (snd r) = ["uploads/aa.pdf"]
  /\ count_occ string_dec ["uploads/aa.pdf"] (IFile.path slides) = 1%nat
  /\ count_occ string_dec ["uploads/aa.pdf"] (IFile.path notes) = 0%nat.
Proof.
  intros w r.
  assert (Hnd : NoDup (map IFile.path (IUnit.files handout))).
  { simpl. repeat constructor; simpl; intuition discriminate. }
  assert (Hs : In slides (IUnit.files handout)) by (left; reflexivity).
  assert (Hn : In notes (IUnit.files handout)) by (right; left; reflexivity).
  destruct (setFiles_unlinks_dropped_files handout [notes] w)
    as (Hv & Hc & Hcount & _).
  split; [exact Hnd|]. split; [exact Hs|]. split; [exact Hn|].
  split; [exact Hv|]. split; [exact Hc|].
  split.
  - exact (Hcount Hnd slides Hs).
  - exact (Hcount Hnd notes Hn).
Defined.

(** ** Deleting a unit *)

(** The cascade of the [pre('remove')] hook: every file record is handed
    to [fs.unlink], and no collection is touched. *)
Lemma forEach_unlink_all (fs : list IFile.t) (w : World) :
  let w' := forEach fs (fun file => fs_unlink (IFile.path file) discard) w in
  unlinkCalls w' = unlinkCalls w ++ map IFile.path fs
  /\ Lectures w' = Lectures w /\ Units w' = Units w
  /\ Courses w' = Courses w.
Proof.
  unfold forEach. revert w.
  induction fs as [|f fs IH]; intros w; simpl.
  - now rewrite app_nil_r.
  - destruct (IH (fs_unlink (IFile.path f) discard w)) as (H1 & H2 & H3 & H4).
    rewrite H1, H2, H3, H4. simpl. now rewrite <- app_assoc.
Qed.

Lemma findUnit_id (id : ObjectId) (us : list IUnit.t) (u : IUnit.t) :
  findUnit id us = Some u -> IUnit._id u = id.
Proof.
  induction us as [|u' us IH]; simpl; [discriminate|].
  destruct (String.eqb_spec (IUnit._id u') id); [|exact IH].
  intros [= <-]. assumption.
Qed.

Lemma findUnit_removed (id : ObjectId) (us : list IUnit.t) :
  findUnit id (filter (fun u => negb (IUnit._id u =? id)%string) us) = None.
Proof.
  induction us as [|u us IH]; simpl; [reflexivity|].
  destruct (IUnit._id u =? id)%string eqn:E; simpl; [exact IH|].
  now rewrite E.
Qed.

Lemma deleteUnit_not_found (id : ObjectId) (w : World) :
  findUnit id (Units w) = None ->
  deleteUnit id w = (Rejected NotFoundError, w).
Proof.
  intros Hf. unfold deleteUnit, andThen, Unit_findById. now rewrite Hf.
Qed.

(** Deleting a file unit: one [fs.unlink] per file record, whatever is on
    the disk; the unit leaves its collection; and of the lectures, the
    first one of the collection is the one the [$pull] is applied to. *)
Lemma deleteUnit_file_unit (id : ObjectId) (w : World) (unit : IUnit.t)
    (t : string) (fs : list IFile.t) :
  findUnit id (Units w) = Some unit ->
  IUnit.variant unit = FileUnit t fs ->
  let r := deleteUnit id w in
  fst r = Fulfilled true
  /\ unlinkCalls (snd r) = unlinkCalls w ++ map IFile.path fs
  /\ length (map IFile.path fs) = length fs
  /\ findUnit id (Units (snd r)) = None
  /\ Lectures (snd r)
     = match Lectures w with
       | [] => []
       | l :: ls => pull_units id l :: ls
       end.
Proof.
  intros Hf Hv r. subst r.
  unfold deleteUnit, andThen, Unit_findById. rewrite Hf.
  unfold Lecture_update, Unit_remove, resolve, IUnit.__t, FileUnit_preRemove,
    IUnit.files.
  rewrite Hv. simpl fst. simpl snd. cbn [String.eqb Ascii.eqb Bool.eqb].
  set (w1 := setLectures w _).
  destruct (forEach_unlink_all fs w1) as (Hc & Hl & Hu & _).
  split; [reflexivity|].
  split; [simpl unlinkCalls; now rewrite Hc|].
  split; [apply length_map|].
  split.
  { simpl Units. rewrite Hu. rewrite (findUnit_id _ _ _ Hf).
    apply findUnit_removed. }
  simpl Lectures. rewrite Hl. unfold w1. simpl.
  now destruct (Lectures w).
Qed.

(** C7: in the sample world the file unit f1, with two file records, is
    listed by the second lecture of the collection.  Deleting it answers
    with success, calls [fs.unlink] once per record although neither file
    exists, and removes the unit document; but [Lecture.update] without
    [multi] has pulled the id from the first lecture only, so the lecture
    that owns the unit still lists it.  An unknown id is answered with
    NotFound and changes nothing. *)
Theorem deleteUnit_leaves_id_in_later_lecture :
  let w := sampleWorld (sampleCourse "free" true None []) in
  let r := deleteUnit "f1" w in
  findUnit "f1" (Units w) = Some handout
  /\ disk w = []
  /\ fst r = Fulfilled true
  /\ unlinkCalls (snd r) = ["uploads/aa.pdf"; "uploads/bb.pdf"]
  /\ findUnit "f1" (Units (snd r)) = None
  /\ findLecture "l2" (Lectures (snd r))
     = Some (ILecture.mk "l2" "Files" "Second week" ["f1"])
  /\ Lectures (snd (deleteUnit "k1" w))
     = [ILecture.mk "l1" "Intro" "First week" []; ILecture.mk "l2" "Files" "Second week" ["f1"]]
  /\ deleteUnit "zz" w = (Rejected NotFoundError, w).
Proof. repeat split. Qed.

(** ** Reading a course *)

Lemma populate_In {D} (find : ObjectId -> option D) (refs : list ObjectId)
    (d : D) :
  In d (populate find refs) <-> exists id, In id refs /\ find id = Some d.
Proof.
  unfold populate. rewrite in_flat_map. split.
  - intros (id & Hin & Hd). exists id. split; [exact Hin|].
    destruct (find id); [|contradiction].
    destruct Hd as [->|[]]. reflexivity.
  - intros (id & Hin & Hd). exists id. split; [exact Hin|].
    rewrite Hd. now left.
Qed.

Lemma hideCode_student (u : IUser.t) (unit : IUnit.t) :
  IUser.role u = "student" -> hideCode u unit = IUnit.setCode unit None.
Proof.
  intros Hr. unfold hideCode, IUnit.setCode, IUnit.__t. rewrite Hr.
  now destruct (IUnit.variant unit).
Qed.

Lemma hideCode_other (u : IUser.t) (unit : IUnit.t) :
  IUser.role u <> "student" -> hideCode u unit = unit.
Proof.
  intros Hr. unfold hideCode.
  destruct (String.eqb_spec (IUser.role u) "student"); [contradiction|].
  now rewrite andb_false_r.
Qed.

Lemma unhidden_course {W} (u : IUser.t)
    (o : CourseObject.t (ILecture.t IUnit.t) W) :
  IUser.role u <> "student" ->
  CourseObject.setLectures o
    (map (fun lecture =>
            ILecture.setUnits lecture
              (map (hideCode u) (ILecture.units lecture)))
       (CourseObject.lectures o)) = o.
Proof.
  intros Hr. destruct o as [i n d a e k wl ca ts ss ls].
  unfold CourseObject.setLectures. simpl. f_equal.
  induction ls as [|l ls IH]; simpl; [reflexivity|].
  rewrite IH. f_equal. destruct l as [li ln ld us].
  unfold ILecture.setUnits. simpl. f_equal.
  clear IH. induction us as [|x us IH]; simpl; [reflexivity|].
  now rewrite IH, (hideCode_other _ _ Hr).
Qed.

Lemma setCode_null_kata (unit : IUnit.t) :
  IUnit.__t (IUnit.setCode unit None) = "code-kata" ->
  IUnit.variant (IUnit.setCode unit None) = CodeKataUnit None.
Proof.
  unfold IUnit.setCode, IUnit.__t.
  destruct (IUnit.variant unit) eqn:E; simpl; rewrite ?E; try discriminate.
  reflexivity.
Qed.

(** C9: reading a course writes nothing, so no stored unit is changed.
    For a user with the role student, every unit of the answer is a stored
    unit with its [code] set to [null] when it is a code-kata unit and
    handed on as stored otherwise; so every code-kata unit of the answer
    has an empty code payload.  For a user with any other role the answer
    is the populated course, untouched. *)
Theorem getCourse_hides_code_from_students (id : ObjectId) (u : IUser.t)
    (w : World) :
  snd (getCourse id u w) = w
  /\ (IUser.role u = "student" ->
      forall course lecture unit,
        fst (getCourse id u w) = Fulfilled course ->
        In lecture (CourseObject.lectures course) ->
        In unit (ILecture.units lecture) ->
        (exists stored,
            findUnit (IUnit._id stored) (Units w) = Some stored
            /\ unit = IUnit.setCode stored None)
        /\ (IUnit.__t unit = "code-kata" ->
            IUnit.variant unit = CodeKataUnit None))
  /\ (IUser.role u <> "student" ->
      forall course,
        Course_findOne
          (mkConditions (cond_active (userReadConditions u))
             (cond_or (userReadConditions u)) (Some id)) w
        = (Fulfilled (Some course), w) ->
        getCourse id u w = (Fulfilled course, w)).
Proof.
  unfold getCourse, andThen, Course_findOne.
  set (q := mkConditions _ _ (Some id)).
  destruct (find (matches q) (Courses w)) as [c|] eqn:Hc; cbn [option_map].
  2:{ split; [reflexivity|]. split.
      - intros _ course lecture unit H. discriminate H.
      - intros _ course H. discriminate H. }
  split; [reflexivity|]. split.
  - intros Hr course lecture unit [= <-] Hl Hu.
    simpl in Hl. apply in_map_iff in Hl as (l1 & <- & Hl).
    apply in_map_iff in Hl as (l0 & <- & Hl).
    simpl in Hu. apply in_map_iff in Hu as (stored & <- & Hu).
    apply populate_In in Hu as (uid & _ & Hfind).
    rewrite (hideCode_student _ _ Hr).
    split; [|apply setCode_null_kata].
    exists stored. split; [|reflexivity].
    now rewrite (findUnit_id _ _ _ Hfind).
  - intros Hr course Heq. injection Heq as <-.
    unfold resolve. now rewrite (unhidden_course _ _ Hr).
Qed.

Lemma getCourse_hides_code_from_students_witness :
  let w := sampleWorld (sampleCourse "free" true None ["u1"]) in
  let hidden := IUnit.mk "k1" "Kata" "Exercise" "c1" (CodeKataUnit None) in
  IUser.role ada = "student" /\ IUser.role snape <> "student"
  /\ (exists course,
        fst (getCourse "c1" ada w) = Fulfilled course
        /\ CourseObject.lectures course
           = [ILecture.mk "l1" "Intro" "First week" [hidden];
              ILecture.mk "l2" "Files" "Second week" [handout]]
        /\ IUnit.variant hidden = CodeKataUnit None)
  /\ findUnit "k1" (Units (snd (getCourse "c1" ada w))) = Some kata
  /\ exists course,
       getCourse "c1" snape w = (Fulfilled course, w)
       /\ CourseObject.lectures course
          = [ILecture.mk "l1" "Intro" "First week" [kata];
             ILecture.mk "l2" "Files" "Second week" [handout]].
Proof.
  intros w hidden.
  destruct (getCourse_hides_code_from_students "c1" ada w) as (Hw & Hs & _).
  destruct (getCourse_hides_code_from_students "c1" snape w) as (_ & _ & Ho).
  split; [reflexivity|]. split; [discriminate|].
  split.
  - eexists. split; [reflexivity|]. split; [reflexivity|].
    refine (proj2 (Hs eq_refl _ (ILecture.mk "l1" "Intro" "First week" [hidden]) hidden
                     eq_refl _ _) eq_refl).
    + left. reflexivity.
    + left. reflexivity.
  - split.
    + rewrite Hw. reflexivity.
    + eexists. split.
      * apply Ho; [discriminate | reflexivity].
      * reflexivity.
Defined.

(** ** Listing courses *)

Lemma findUser_id (id : ObjectId) (us : list IUser.t) (u : IUser.t) :
  findUser id us = Some u -> IUser._id u = id.
Proof.
  induction us as [|u' us IH]; simpl; [discriminate|].
  destruct (String.eqb_spec (IUser._id u') id); [|exact IH].
  intros [= <-]. assumption.
Qed.

Lemma existsb_filter_same (uid : ObjectId) (xs : list ObjectId) :
  existsb (String.eqb uid) (filter (String.eqb uid) xs)
  = existsb (String.eqb uid) xs.
Proof.
  induction xs as [|x xs IH]; simpl; [reflexivity|].
  destruct (uid =? x)%string eqn:E; simpl; [now rewrite E | exact IH].
Qed.

(** The query of a student selects a course by the student's own
    membership and by fields that are no membership at all. *)
Lemma student_query_forgets (uid : ObjectId) (c : ICourse.t) :
  let q := mkConditions (Some true)
             (Some [students_has uid; enrollType_is "free";
                    enrollType_is "accesskey"]) None in
  matches q
    (ICourse.setStudents c (filter (String.eqb uid) (ICourse.students c)))
  = matches q c.
Proof.
  unfold matches. simpl. now rewrite existsb_filter_same.
Qed.

Lemma filter_map_commute {A} (g : A -> A) (p : A -> bool) (xs : list A) :
  (forall x, p (g x) = p x) ->
  filter p (map g xs) = map g (filter p xs).
Proof.
  intros H. induction xs as [|x xs IH]; simpl; [reflexivity|].
  rewrite H. destruct (p x); simpl; now rewrite IH.
Qed.

Section ReadingFacts.

Variable strictEqual : ObjectId -> ObjectId -> bool.

(** Two ids that are strictly equal are the same id. *)
Hypothesis strictEqual_sound : forall a b, strictEqual a b = true -> a = b.

Local Abbreviation own u :=
  (fun student : IUser.t => strictEqual (IUser._id student) (IUser._id u)).

(** Among the populated students, the ones the filter keeps come from
    the references to the reader. *)
Lemma own_students_forget (u : IUser.t) (us : list IUser.t)
    (refs : list ObjectId) :
  filter (own u)
    (populate (fun id => findUser id us)
       (filter (String.eqb (IUser._id u)) refs))
  = filter (own u) (populate (fun id => findUser id us) refs).
Proof.
  unfold populate.
  induction refs as [|r refs IH]; simpl; [reflexivity|].
  destruct (String.eqb_spec (IUser._id u) r) as [E|E]; simpl.
  - rewrite !filter_app, IH. reflexivity.
  - rewrite filter_app, IH.
    destruct (findUser r us) as [d|] eqn:Hd; simpl; [|reflexivity].
    destruct (strictEqual (IUser._id d) (IUser._id u)) eqn:Hs;
      [|reflexivity].
    apply strictEqual_sound in Hs. apply findUser_id in Hd. congruence.
Qed.

(** C10: for a reader with the role student, listing the courses writes
    nothing, and every course object of the answer is without [courseAdmin]
    and lists, as students, only documents that carry the reader's own id.
    The answer is the same in the world where every course has forgotten
    all students but the reader: it does not depend on who else is
    enrolled. *)
Theorem getCourses_student_sees_only_self (u : IUser.t) (w : World) :
  IUser.role u = "student" ->
  snd (getCourses strictEqual u w) = w
  /\ (forall courses o,
        fst (getCourses strictEqual u w) = Fulfilled courses ->
        In o courses ->
        CourseObject.courseAdmin o = None
        /\ forall s, In s (CourseObject.students o) ->
                     IUser._id s = IUser._id u)
  /\ fst (getCourses strictEqual u (forgetOtherStudents (IUser._id u) w))
     = fst (getCourses strictEqual u w).
Proof.
  intros Hr. unfold getCourses, userReadConditions, andThen, Course_find, resolve.
  rewrite Hr. cbn [String.eqb Ascii.eqb Bool.eqb cond_or cond_active cond_id
                   push app fst snd].
  split; [reflexivity|]. split.
  - intros courses o [= <-] Hin.
    apply in_map_iff in Hin as (o' & <- & _). simpl.
    split; [reflexivity|].
    intros s Hs. apply filter_In in Hs as (_ & Hs).
    now apply strictEqual_sound.
  - f_equal. unfold forgetOtherStudents, mapCourses. simpl Courses.
    rewrite filter_map_commute by (intros c; apply student_query_forgets).
    rewrite !map_map. apply map_ext. intros c.
    unfold populateForList, CourseObject.setStudents,
      CourseObject.deleteCourseAdmin. simpl.
    now rewrite own_students_forget.
Qed.

End ReadingFacts.

Lemma getCourses_student_sees_only_self_witness :
  let w := sampleWorld (sampleCourse "free" true None ["u3"; "u1"; "u2"]) in
  (forall a b, String.eqb a b = true -> a = b)
  /\ IUser.role ada = "student"
  /\ (exists o,
        fst (getCourses String.eqb ada w) = Fulfilled [o]
        /\ CourseObject.courseAdmin o = None
        /\ forall s, In s (CourseObject.students o) ->
                     IUser._id s = IUser._id ada)
  /\ fst (getCourses String.eqb ada
            (sampleWorld (sampleCourse "free" true None ["u1"])))
     = fst (getCourses String.eqb ada w).
Proof.
  intros w.
  assert (Hsound : forall a b, String.eqb a b = true -> a = b)
    by (intros a b; apply String.eqb_eq).
  destruct (getCourses_student_sees_only_self String.eqb Hsound ada w eq_refl)
    as (_ & Hown & Hni).
  split; [exact Hsound|]. split; [reflexivity|].
  split.
  - eexists. split; [reflexivity|].
    apply (Hown _ _ eq_refl). left. reflexivity.
  - exact Hni.
Defined.

(** * Further properties of the handlers *)

(** ** Saving a course *)

Lemma findCourse_replace_other (id : ObjectId) (c : ICourse.t)
    (cs : list ICourse.t) :
  id <> ICourse._id c ->
  findCourse id (replaceCourse c cs) = findCourse id cs.
Proof.
  intros Hne. induction cs as [|c' cs IH]; simpl; [reflexivity|].
  destruct (String.eqb_spec (ICourse._id c') (ICourse._id c)) as [E|E]; simpl.
  - destruct (String.eqb_spec (ICourse._id c) id); [congruence|].
    destruct (String.eqb_spec (ICourse._id c') id); [congruence | reflexivity].
  - now rewrite IH.
Qed.

Lemma replaceCourse_ids (c : ICourse.t) (cs : list ICourse.t) :
  map ICourse._id (replaceCourse c cs) = map ICourse._id cs.
Proof.
  induction cs as [|c' cs IH]; simpl; [reflexivity|].
  destruct (String.eqb_spec (ICourse._id c') (ICourse._id c)) as [E|E]; simpl.
  - now rewrite E.
  - now rewrite IH.
Qed.

Lemma replaceCourse_same (c : ICourse.t) (cs : list ICourse.t) :
  findCourse (ICourse._id c) cs = Some c -> replaceCourse c cs = cs.
Proof.
  induction cs as [|c' cs IH]; simpl; [reflexivity|].
  destruct (ICourse._id c' =? ICourse._id c)%string.
  - now intros [= ->].
  - intros H. now rewrite IH.
Qed.

Lemma replaceCourse_twice (c c' : ICourse.t) (cs : list ICourse.t) :
  ICourse._id c = ICourse._id c' ->
  replaceCourse c (replaceCourse c' cs) = replaceCourse c cs.
Proof.
  intros E. induction cs as [|c0 cs IH]; simpl; [reflexivity|].
  rewrite <- E.
  destruct (ICourse._id c0 =? ICourse._id c)%string eqn:E0; simpl.
  - now rewrite E, String.eqb_refl.
  - now rewrite E0, IH.
Qed.

Lemma setCourses_same (w : World) : setCourses w (Courses w) = w.
Proof. now destruct w. Qed.

Lemma setStudents_same (c : ICourse.t) :
  ICourse.setStudents c (ICourse.students c) = c.
Proof. now destruct c. Qed.

(** ** Arrays, continued *)



(** ** Enrollment, continued *)

Section EnrollmentMore.

Variable toLowerCase : string -> string.
Variable WhitelistUser_find :
  list IWhitelistUser.t -> list ObjectId -> list IWhitelistUser.t.

Local Abbreviation enroll := (enrollStudent toLowerCase WhitelistUser_find).

(** X1: a student who is not yet a member, on a course that does not
    admit by whitelist and whose key check lets the request through, is
    appended at the end of [course.students]; the answer is the saved
    course, the course is found with the new list afterwards, and every
    other course is found as before. *)
Theorem enroll_new_member (id : ObjectId) (data : EnrollData) (u : IUser.t)
    (w : World) (c : ICourse.t) :
  findCourse id (Courses w) = Some c ->
  ICourse.enrollType c <> "whitelist" ->
  truthy (ICourse.accessKey c)
    && strictNotEqual (ICourse.accessKey c) (accessKey data) = false ->
  ~ In (IUser._id u) (ICourse.students c) ->
  let c' := ICourse.setStudents c (ICourse.students c ++ [IUser._id u]) in
  fst (enroll id data u w) = Fulfilled (Some c')
  /\ findCourse id (Courses (snd (enroll id data u w))) = Some c'
  /\ forall id', id' <> id ->
       findCourse id' (Courses (snd (enroll id data u w)))
       = findCourse id' (Courses w).
Proof.
  intros Hf Ht Hk Hn c'.
  rewrite (enroll_keyed _ _ _ _ _ _ _ Hf Ht), Hk.
  unfold addStudent. apply indexOf_absent in Hn. rewrite Hn.
  unfold andThen, Course_save, resolve. simpl.
  pose proof (findCourse_id _ _ _ Hf) as Hid.
  split; [reflexivity|]. split.
  - apply findCourse_replace with (c0 := c); assumption.
  - intros id' Hne. apply findCourse_replace_other. simpl. congruence.
Qed.

(** X2: whatever the outcome, an enrollment attempt leaves the lectures,
    the units, the users, the whitelist entries and the files alone, keeps
    the ids of the courses in their order, leaves every other course as it
    is, and changes at most the [students] of the course it names. *)
Theorem enrollStudent_frame (id : ObjectId) (data : EnrollData) (u : IUser.t)
    (w : World) :
  let w' := snd (enroll id data u w) in
  Lectures w' = Lectures w /\ Units w' = Units w /\ Users w' = Users w
  /\ WhitelistUsers w' = WhitelistUsers w
  /\ disk w' = disk w /\ unlinkCalls w' = unlinkCalls w
  /\ map ICourse._id (Courses w') = map ICourse._id (Courses w)
  /\ (forall id', id' <> id ->
        findCourse id' (Courses w') = findCourse id' (Courses w))
  /\ (forall c, findCourse id (Courses w) = Some c ->
        exists c', findCourse id (Courses w') = Some c'
                   /\ c' = ICourse.setStudents c (ICourse.students c')).
Proof.
  intros w'. subst w'.
  assert (Hsame : snd (enroll id data u w) = w ->
    Lectures (snd (enroll id data u w)) = Lectures w
    /\ Units (snd (enroll id data u w)) = Units w
    /\ Users (snd (enroll id data u w)) = Users w
    /\ WhitelistUsers (snd (enroll id data u w)) = WhitelistUsers w
    /\ disk (snd (enroll id data u w)) = disk w
    /\ unlinkCalls (snd (enroll id data u w)) = unlinkCalls w
    /\ map ICourse._id (Courses (snd (enroll id data u w)))
       = map ICourse._id (Courses w)
    /\ (forall id', id' <> id ->
          findCourse id' (Courses (snd (enroll id data u w)))
          = findCourse id' (Courses w))
    /\ (forall c, findCourse id (Courses w) = Some c ->
          exists c', findCourse id (Courses (snd (enroll id data u w))) = Some c'
                     /\ c' = ICourse.setStudents c (ICourse.students c'))).
  { intros ->. repeat split; try reflexivity.
    intros c Hc. exists c. split; [exact Hc|].
    symmetry. apply setStudents_same. }
  destruct (findCourse id (Courses w)) as [c|] eqn:Hf.
  2:{ apply Hsame. now rewrite (enroll_not_found _ _ _ _ _ _ Hf). }
  destruct (String.eqb_spec (ICourse.enrollType c) "whitelist") as [Ht|Ht].
  { apply Hsame.
    now destruct (enroll_whitelist_unchanged toLowerCase WhitelistUser_find
                    id data u w c Hf Ht). }
  destruct (truthy (ICourse.accessKey c)
            && strictNotEqual (ICourse.accessKey c) (accessKey data)) eqn:Hk.
  { apply Hsame. now rewrite (enroll_keyed _ _ _ _ _ _ _ Hf Ht), Hk. }
  destruct (indexOf (ICourse.students c) (IUser._id u) <? 0) eqn:Hi.
  2:{ apply Hsame. rewrite (enroll_keyed _ _ _ _ _ _ _ Hf Ht), Hk.
      unfold addStudent. now rewrite Hi. }
  clear Hsame.
  rewrite (enroll_keyed _ _ _ _ _ _ _ Hf Ht), Hk.
  unfold addStudent. rewrite Hi.
  unfold andThen, Course_save, resolve. simpl.
  pose proof (findCourse_id _ _ _ Hf) as Hid.
  repeat split; try reflexivity.
  - apply replaceCourse_ids.
  - intros id' Hne. apply findCourse_replace_other. simpl. congruence.
  - intros c0 [= <-]. eexists. split.
    + apply findCourse_replace with (c0 := c); [exact Hf | exact Hid].
    + reflexivity.
Qed.

(** X3: on a course that already has a member, enrolling a new student
    and then letting that student leave gives back the world as it was. *)
Theorem leave_after_enroll (id : ObjectId) (data data' : EnrollData)
    (u : IUser.t) (w : World) (c : ICourse.t) :
  findCourse id (Courses w) = Some c ->
  ICourse.enrollType c <> "whitelist" ->
  truthy (ICourse.accessKey c)
    && strictNotEqual (ICourse.accessKey c) (accessKey data) = false ->
  ~ In (IUser._id u) (ICourse.students c) ->
  ICourse.students c <> [] ->
  snd (leaveStudent id data' u (snd (enroll id data u w))) = w.
Proof.
  intros Hf Ht Hk Hn Hne.
  rewrite (enroll_keyed _ _ _ _ _ _ _ Hf Ht), Hk.
  unfold addStudent. pose proof Hn as Hi. apply indexOf_absent in Hi.
  rewrite Hi. unfold andThen at 1. unfold Course_save at 1, resolve at 1.
  simpl snd.
  set (c' := ICourse.setStudents c
               (push (ICourse.students c) (IUser._id u))).
  pose proof (findCourse_id _ _ _ Hf) as Hid.
  assert (Hf' : findCourse id (Courses (setCourses w (replaceCourse c' (Courses w))))
                = Some c')
    by (apply findCourse_replace with (c0 := c); assumption).
  unfold leaveStudent, andThen, Course_findById. rewrite Hf'. cbv zeta.
  change (ICourse.students c') with (ICourse.students c ++ [IUser._id u]).
  unfold indexOf. rewrite indexOfFrom_app by exact Hn.
  destruct (ICourse.students c) as [|s ss] eqn:Hs; [contradiction|].
  destruct (Z.eqb_spec (0 + Z.of_nat (length (s :: ss))) 0) as [E|_];
    [simpl length in E; lia|].
  simpl negb. cbv iota. rewrite Z.add_0_l, splice_one_at, app_nil_r.
  unfold Course_save, resolve. simpl snd. simpl Courses.
  assert (Hc : ICourse.setStudents c' (s :: ss) = c)
    by (unfold c'; destruct c; simpl in *; now subst).
  rewrite Hc, replaceCourse_twice by reflexivity.
  rewrite (replaceCourse_same c) by (now rewrite Hid).
  destruct w; reflexivity.
Qed.

End EnrollmentMore.

Lemma enroll_new_member_witness :
  let c := sampleCourse "free" true None ["u3"] in
  let w := sampleWorld c in
  findCourse "c1" (Courses w) = Some c
  /\ ~ In (IUser._id ada) (ICourse.students c)
  /\ fst (enrollAscii "c1" noKey ada w)
     = Fulfilled (Some (sampleCourse "free" true None ["u3"; "u1"]))
  /\ findCourse "c1" (Courses (snd (enrollAscii "c1" noKey ada w)))
     = Some (sampleCourse "free" true None ["u3"; "u1"]).
Proof.
  intros c w.
  assert (Hn : ~ In (IUser._id ada) (ICourse.students c))
    by (simpl; intros [H|[]]; discriminate).
  destruct (enroll_new_member asciiToLowerCase whitelistByRefs "c1" noKey ada
              w c eq_refl ltac:(discriminate) eq_refl Hn) as (H1 & H2 & _).
  split; [reflexivity|]. split; [exact Hn|]. split; [exact H1 | exact H2].
Defined.

Lemma enrollStudent_frame_witness :
  let c := sampleCourse "free" true None ["u3"] in
  let w := sampleWorld c in
  findCourse "c1" (Courses w) = Some c
  /\ Units (snd (enrollAscii "c1" noKey ada w)) = [kata; handout]
  /\ exists c', findCourse "c1" (Courses (snd (enrollAscii "c1" noKey ada w)))
                = Some c'
                /\ c' = ICourse.setStudents c (ICourse.students c').
Proof.
  intros c w.
  destruct (enrollStudent_frame asciiToLowerCase whitelistByRefs "c1" noKey
              ada w) as (_ & Hu & _ & _ & _ & _ & _ & _ & Hc).
  split; [reflexivity|]. split; [exact Hu|].
  apply Hc. reflexivity.
Defined.

Lemma leave_after_enroll_witness :
  let c := sampleCourse "accesskey" true (Some "s3cr3t") ["u3"] in
  let w := sampleWorld c in
  findCourse "c1" (Courses w) = Some c
  /\ ~ In (IUser._id ada) (ICourse.students c)
  /\ ICourse.students c <> []
  /\ studentsOf "c1" (snd (enrollAscii "c1" (mkData (JsString "s3cr3t")) ada w))
     = Some ["u3"; "u1"]
  /\ snd (leaveStudent "c1" noKey ada
            (snd (enrollAscii "c1" (mkData (JsString "s3cr3t")) ada w))) = w.
Proof.
  intros c w.
  assert (Hn : ~ In (IUser._id ada) (ICourse.students c))
    by (simpl; intros [H|[]]; discriminate).
  split; [reflexivity|]. split; [exact Hn|]. split; [discriminate|].
  split; [reflexivity|].
  apply (leave_after_enroll asciiToLowerCase whitelistByRefs "c1"
           (mkData (JsString "s3cr3t")) noKey ada w c eq_refl);
    [discriminate | reflexivity | exact Hn | discriminate].
Defined.

(** ** Leaving a course, continued *)



(** X5: a member who stands after the first place of the list is taken
    out by leaving, and the other members stay in their order. *)
Theorem leaveStudent_removes_later_member (id : ObjectId) (data : EnrollData)
    (u : IUser.t) (w : World) (c : ICourse.t) (xs ys : list ObjectId) :
  findCourse id (Courses w) = Some c ->
  ICourse.students c = xs ++ IUser._id u :: ys ->
  xs <> [] -> ~ In (IUser._id u) xs ->
  fst (leaveStudent id data u w) = Fulfilled (ICourse.setStudents c (xs ++ ys))
  /\ studentsOf id (snd (leaveStudent id data u w)) = Some (xs ++ ys).
Proof.
  intros Hf Hs Hne Hn.
  split; [|now apply (leaveStudent_later_member id data u w c)].
  unfold leaveStudent, andThen, Course_findById. rewrite Hf.
  cbv zeta. rewrite Hs. unfold indexOf. rewrite indexOfFrom_app by exact Hn.
  destruct xs as [|x xs]; [contradiction|].
  destruct (Z.eqb_spec (0 + Z.of_nat (length (x :: xs))) 0) as [E|_];
    [simpl length in E; lia|].
  simpl negb. cbv iota.
  now rewrite Z.add_0_l, splice_one_at.
Qed.

Lemma leaveStudent_removes_later_member_witness :
  let c := sampleCourse "free" true None ["u3"; "u1"; "u2"] in
  let w := sampleWorld c in
  findCourse "c1" (Courses w) = Some c
  /\ ICourse.students c = ["u3"] ++ IUser._id ada :: ["u2"]
  /\ ~ In (IUser._id ada) ["u3"]
  /\ studentsOf "c1" (snd (leaveStudent "c1" noKey ada w)) = Some ["u3"; "u2"].
Proof.
  intros c w.
  assert (Hn : ~ In (IUser._id ada) ["u3"])
    by (simpl; intros [H|[]]; discriminate).
  split; [reflexivity|]. split; [reflexivity|]. split; [exact Hn|].
  apply (leaveStudent_removes_later_member "c1" noKey ada w c ["u3"] ["u2"]
           eq_refl eq_refl ltac:(discriminate) Hn).
Defined.

(** ** Who reads which course *)

Lemma existsb_eqb_In (x : ObjectId) (xs : list ObjectId) :
  existsb (String.eqb x) xs = true <-> In x xs.
Proof.
  rewrite existsb_exists. split.
  - intros (y & Hy & E). apply String.eqb_eq in E. now subst.
  - intros H. exists x. split; [exact H | apply String.eqb_refl].
Qed.

(** The query of [getCourse] selects the courses with the given id that
    the reader may read. *)
Lemma matches_read (id : ObjectId) (u : IUser.t) (c : ICourse.t) :
  matches (mkConditions (cond_active (userReadConditions u))
             (cond_or (userReadConditions u)) (Some id)) c = true
  <-> mayRead u c /\ ICourse._id c = id.
Proof.
  unfold matches, userReadConditions, mayRead.
  destruct (IUser.role u =? "admin")%string; simpl.
  - rewrite String.eqb_eq. tauto.
  - destruct (IUser.role u =? "student")%string; simpl.
    + rewrite !andb_true_iff, orb_false_r, existsb_eqb_In, String.eqb_eq.
      rewrite Bool.eqb_true_iff. tauto.
    + rewrite andb_true_iff, orb_false_r, orb_true_iff, existsb_eqb_In,
        !String.eqb_eq. tauto.
Qed.

(** The query of [getCourses] for a reader who is no admin: the courses
    the reader may read, and for a student the active ones among the
    courses open to all, for the others all of these. *)
Lemma matches_list (u : IUser.t) (c : ICourse.t) (or : list Clause) :
  cond_or (userReadConditions u) = Some or ->
  matches (mkConditions (cond_active (userReadConditions u))
             (Some (push (push or (enrollType_is "free"))
                      (enrollType_is "accesskey")))
             (cond_id (userReadConditions u))) c = true
  <-> mayRead u c
      \/ (openToAll c
          /\ (IUser.role u = "student" -> ICourse.active c = true)).
Proof.
  unfold matches, userReadConditions, mayRead, openToAll, push.
  destruct (IUser.role u =? "admin")%string; simpl; [discriminate|].
  destruct (String.eqb_spec (IUser.role u) "student") as [Hr|Hr]; simpl;
    intros [= <-]; simpl.
  - rewrite orb_false_r, andb_true_r, andb_true_iff, !orb_true_iff,
      existsb_eqb_In, !String.eqb_eq, Bool.eqb_true_iff. tauto.
  - rewrite orb_false_r, andb_true_r, !orb_true_iff, existsb_eqb_In,
      !String.eqb_eq. tauto.
Qed.

Lemma filter_all {A} (p : A -> bool) (xs : list A) :
  (forall x, p x = true) -> filter p xs = xs.
Proof.
  intros H. induction xs as [|x xs IH]; simpl; [reflexivity|].
  now rewrite H, IH.
Qed.

Lemma find_exists {A} (p : A -> bool) (xs : list A) (x : A) :
  In x xs -> p x = true -> exists y, find p xs = Some y.
Proof.
  intros Hin Hp. destruct (find p xs) as [y|] eqn:E; [eauto|].
  rewrite (find_none _ _ E x Hin) in Hp. discriminate.
Qed.

(** Whatever [getCourse] finds, it answers with that course under the
    requested id. *)
Lemma getCourse_found (id : ObjectId) (u : IUser.t) (w : World)
    (c : ICourse.t) :
  find (matches (mkConditions (cond_active (userReadConditions u))
                   (cond_or (userReadConditions u)) (Some id)))
    (Courses w) = Some c ->
  exists o, getCourse id u w = (Fulfilled o, w)
            /\ CourseObject._id o = id.
Proof.
  intros Hf. unfold getCourse, andThen, Course_findOne. rewrite Hf.
  cbn [option_map]. unfold resolve. eexists. split; [reflexivity|].
  simpl. apply find_some in Hf as (_ & Hm).
  now apply matches_read in Hm.
Qed.

Section ReadingMore.

Variable strictEqual : ObjectId -> ObjectId -> bool.

(** X6: for a reader with the role admin the list is every course of the
    collection, populated and otherwise untouched: no course is left out
    and nothing is taken off the course objects. *)
Theorem getCourses_admin_sees_all (u : IUser.t) (w : World) :
  IUser.role u = "admin" ->
  getCourses strictEqual u w
  = (Fulfilled (map (populateForList w) (Courses w)), w).
Proof.
  intros Hr. unfold getCourses, userReadConditions, andThen, Course_find,
    resolve.
  rewrite Hr. simpl. rewrite filter_all by reflexivity.
  f_equal. f_equal. apply map_id.
Qed.

(** X7: for a reader with the role student, a course is in the list
    exactly when it is active and the reader is one of its students or
    the course is open to all; an inactive course is never listed, and a
    course that admits by whitelist only to its members. *)
Theorem getCourses_student_listing (u : IUser.t) (w : World)
    (courses : list (CourseObject.t (ILecture.t ObjectId) ObjectId)) :
  IUser.role u = "student" ->
  fst (getCourses strictEqual u w) = Fulfilled courses ->
  forall id,
    In id (map CourseObject._id courses)
    <-> exists c, In c (Courses w) /\ ICourse._id c = id
                  /\ ICourse.active c = true
                  /\ (In (IUser._id u) (ICourse.students c) \/ openToAll c).
Proof.
  intros Hr Hc id.
  assert (Hor : cond_or (userReadConditions u)
                = Some [students_has (IUser._id u)])
    by (unfold userReadConditions; now rewrite Hr).
  pose proof (fun c => matches_list u c _ Hor) as Hm.
  unfold getCourses, andThen, Course_find, resolve in Hc.
  rewrite Hor in Hc. simpl in Hc. injection Hc as <-.
  rewrite !map_map. simpl.
  assert (Hread : forall c, mayRead u c
            <-> ICourse.active c = true
                /\ In (IUser._id u) (ICourse.students c)).
  { intros c. unfold mayRead. now rewrite Hr. }
  split.
  - intros H. apply in_map_iff in H as (c & Heq & H).
    apply filter_In in H as (Hin & H). apply Hm in H.
    exists c. split; [exact Hin|]. split.
    + rewrite <- Heq, Hr. reflexivity.
    + rewrite Hread in H. tauto.
  - intros (c & Hin & <- & Ha & H).
    apply in_map_iff. exists c. split.
    + rewrite Hr. reflexivity.
    + apply filter_In. split; [exact Hin|]. apply Hm.
      rewrite Hread. tauto.
Qed.

(** X8: for a reader who is neither admin nor student, the list holds
    exactly the courses the reader teaches or administers and the courses
    open to all, active or not, and each course object is handed on as
    populated, with its [courseAdmin] and all its students. *)
Theorem getCourses_staff_listing (u : IUser.t) (w : World) :
  IUser.role u <> "admin" -> IUser.role u <> "student" ->
  exists cs,
    getCourses strictEqual u w = (Fulfilled (map (populateForList w) cs), w)
    /\ forall c,
         In c cs
         <-> In c (Courses w)
             /\ (In (IUser._id u) (ICourse.teachers c)
                 \/ ICourse.courseAdmin c = IUser._id u \/ openToAll c).
Proof.
  intros Ha Hs.
  assert (Hor : cond_or (userReadConditions u)
                = Some [teachers_has (IUser._id u);
                        courseAdmin_is (IUser._id u)]).
  { unfold userReadConditions.
    destruct (String.eqb_spec (IUser.role u) "admin"); [contradiction|].
    now destruct (String.eqb_spec (IUser.role u) "student"). }
  pose proof (fun c => matches_list u c _ Hor) as Hm.
  unfold getCourses, andThen, Course_find, resolve. rewrite Hor.
  destruct (String.eqb_spec (IUser.role u) "student"); [contradiction|].
  eexists. split.
  - f_equal. f_equal. apply map_id.
  - intros c. rewrite filter_In, Hm. unfold mayRead.
    destruct (String.eqb_spec (IUser.role u) "admin"); [contradiction|].
    destruct (String.eqb_spec (IUser.role u) "student"); [contradiction|].
    tauto.
Qed.

End ReadingMore.

Lemma getCourses_admin_sees_all_witness :
  let admin := IUser.mk "a1" "root" "Albus" "D" "admin" in
  let w := sampleWorld (sampleCourse "whitelist" false None ["u3"]) in
  IUser.role admin = "admin"
  /\ exists o,
       fst (getCourses String.eqb admin w) = Fulfilled [o]
       /\ CourseObject.courseAdmin o = Some snape
       /\ CourseObject.students o = [bob].
Proof.
  intros admin w.
  pose proof (getCourses_admin_sees_all String.eqb admin w eq_refl) as H.
  split; [reflexivity|].
  eexists. rewrite H. repeat split.
Defined.

Lemma getCourses_student_listing_witness :
  let listed := sampleWorld (sampleCourse "accesskey" true None []) in
  let hidden := sampleWorld (sampleCourse "whitelist" true None ["u3"]) in
  IUser.role ada = "student"
  /\ In "c1" ["c1"]
  /\ (exists c, In c (Courses listed) /\ ICourse._id c = "c1"
                /\ ICourse.active c = true
                /\ (In (IUser._id ada) (ICourse.students c) \/ openToAll c))
  /\ fst (getCourses String.eqb ada hidden) = Fulfilled []
  /\ ~ exists c, In c (Courses hidden) /\ ICourse._id c = "c1"
                 /\ ICourse.active c = true
                 /\ (In (IUser._id ada) (ICourse.students c) \/ openToAll c).
Proof.
  intros listed hidden.
  split; [reflexivity|]. split; [now left|].
  split.
  - refine (proj1 (getCourses_student_listing String.eqb ada listed _
                     eq_refl eq_refl "c1") _).
    now left.
  - split; [reflexivity|].
    intros H.
    apply (getCourses_student_listing String.eqb ada hidden [] eq_refl eq_refl)
      in H.
    exact H.
Defined.

Lemma getCourses_staff_listing_witness :
  let w := sampleWorld (sampleCourse "whitelist" false None ["u3"]) in
  IUser.role snape <> "admin" /\ IUser.role snape <> "student"
  /\ exists o,
       fst (getCourses String.eqb snape w) = Fulfilled [o]
       /\ CourseObject.students o = [bob].
Proof.
  intros w.
  destruct (getCourses_staff_listing String.eqb snape w
              ltac:(discriminate) ltac:(discriminate)) as (cs & H & _).
  split; [discriminate|]. split; [discriminate|].
  eexists. split; reflexivity.
Defined.

(** X9: a course is handed out under an id exactly to a reader who may
    read a course with that id: an admin any course, a student an active
    course of which the student is a member, anybody else a course the
    reader teaches or administers.  Without such a course the answer is
    NotFound, whether or not the id exists, and nothing is written. *)
Theorem getCourse_access_rule (id : ObjectId) (u : IUser.t) (w : World) :
  ((exists c, In c (Courses w) /\ ICourse._id c = id /\ mayRead u c) ->
   exists o, getCourse id u w = (Fulfilled o, w)
             /\ CourseObject._id o = id)
  /\ ((forall c, In c (Courses w) -> ICourse._id c = id -> ~ mayRead u c) ->
      getCourse id u w = (Rejected NotFoundError, w)).
Proof.
  set (q := mkConditions (cond_active (userReadConditions u))
              (cond_or (userReadConditions u)) (Some id)).
  split.
  - intros (c & Hin & Hid & Hr).
    destruct (find_exists (matches q) (Courses w) c Hin) as [c' Hc'].
    + apply matches_read. tauto.
    + exact (getCourse_found id u w c' Hc').
  - intros Hno. unfold getCourse, andThen, Course_findOne. fold q.
    destruct (find (matches q) (Courses w)) as [c|] eqn:Hf; [|reflexivity].
    exfalso. apply find_some in Hf as (Hin & Hm).
    apply matches_read in Hm as (Hr & Hid). exact (Hno c Hin Hid Hr).
Qed.

Lemma getCourse_access_rule_witness :
  let member := sampleWorld (sampleCourse "free" true None ["u1"]) in
  let stranger := sampleWorld (sampleCourse "free" true None ["u3"]) in
  mayRead ada (sampleCourse "free" true None ["u1"])
  /\ (exists o, getCourse "c1" ada member = (Fulfilled o, member)
                /\ CourseObject._id o = "c1")
  /\ (forall c, In c (Courses stranger) -> ICourse._id c = "c1" ->
                ~ mayRead ada c)
  /\ getCourse "c1" ada stranger = (Rejected NotFoundError, stranger).
Proof.
  intros member stranger.
  assert (Hr : mayRead ada (sampleCourse "free" true None ["u1"]))
    by (split; [reflexivity | now left]).
  assert (Hs : forall c, In c (Courses stranger) -> ICourse._id c = "c1" ->
                         ~ mayRead ada c).
  { intros c [<-|[]] _ [_ [H|[]]]. discriminate. }
  split; [exact Hr|]. split.
  - apply (getCourse_access_rule "c1" ada member).
    eexists. split; [now left|]. split; [reflexivity | exact Hr].
  - split; [exact Hs|].
    now apply (getCourse_access_rule "c1" ada stranger).
Defined.

(** ** Reading after enrolling *)

Lemma findCourse_In (id : ObjectId) (cs : list ICourse.t) (c : ICourse.t) :
  findCourse id cs = Some c -> In c cs.
Proof.
  induction cs as [|c' cs IH]; simpl; [discriminate|].
  destruct (ICourse._id c' =? id)%string.
  - intros [= ->]. now left.
  - intros H. right. now apply IH.
Qed.

Section ReadAfterEnroll.

Variable toLowerCase : string -> string.
Variable WhitelistUser_find :
  list IWhitelistUser.t -> list ObjectId -> list IWhitelistUser.t.

Local Abbreviation enroll := (enrollStudent toLowerCase WhitelistUser_find).

(** X10: once a student's request to enroll in an active course has
    passed the key check, member before or not, the student can open the
    course: the read that follows the enrollment is answered with the
    course of that id. *)
Theorem enroll_then_read (id : ObjectId) (data : EnrollData) (u : IUser.t)
    (w : World) (c : ICourse.t) :
  IUser.role u = "student" ->
  findCourse id (Courses w) = Some c ->
  ICourse.active c = true ->
  ICourse.enrollType c <> "whitelist" ->
  truthy (ICourse.accessKey c)
    && strictNotEqual (ICourse.accessKey c) (accessKey data) = false ->
  let w' := snd (enroll id data u w) in
  exists o, getCourse id u w' = (Fulfilled o, w')
            /\ CourseObject._id o = id.
Proof.
  intros Hr Hf Ha Ht Hk w'.
  assert (Hc : exists c', findCourse id (Courses w') = Some c'
                          /\ ICourse.active c' = true
                          /\ In (IUser._id u) (ICourse.students c')).
  { subst w'. rewrite (enroll_keyed _ _ _ _ _ _ _ Hf Ht), Hk.
    unfold addStudent.
    destruct (indexOf (ICourse.students c) (IUser._id u) <? 0) eqn:Hi.
    - unfold andThen, Course_save, resolve. simpl.
      eexists. split.
      + apply findCourse_replace with (c0 := c); [exact Hf|].
        exact (findCourse_id _ _ _ Hf).
      + split; [exact Ha|]. simpl. unfold push. apply in_or_app.
        right. now left.
    - apply indexOf_present in Hi. exists c. simpl. auto. }
  destruct Hc as (c' & Hf' & Ha' & Hin').
  destruct (find_exists
              (matches (mkConditions (cond_active (userReadConditions u))
                          (cond_or (userReadConditions u)) (Some id)))
              (Courses w') c' (findCourse_In _ _ _ Hf')) as [c'' Hc''].
  - apply matches_read. split; [|exact (findCourse_id _ _ _ Hf')].
    unfold mayRead. rewrite Hr. simpl. auto.
  - exact (getCourse_found id u w' c'' Hc'').
Qed.

End ReadAfterEnroll.

Lemma enroll_then_read_witness :
  let c := sampleCourse "accesskey" true (Some "s3cr3t") ["u3"] in
  let w := sampleWorld c in
  let data := mkData (JsString "s3cr3t") in
  IUser.role ada = "student"
  /\ findCourse "c1" (Courses w) = Some c
  /\ getCourse "c1" ada w = (Rejected NotFoundError, w)
  /\ exists o,
       getCourse "c1" ada (snd (enrollAscii "c1" data ada w))
       = (Fulfilled o, snd (enrollAscii "c1" data ada w))
       /\ CourseObject._id o = "c1".
Proof.
  intros c w data.
  split; [reflexivity|]. split; [reflexivity|]. split; [reflexivity|].
  apply (enroll_then_read asciiToLowerCase whitelistByRefs "c1" data ada w c
           eq_refl eq_refl eq_refl ltac:(discriminate) eq_refl).
Defined.

(** ** Files of a unit, continued *)

Lemma filter_none {A} (p : A -> bool) (xs : list A) :
  (forall x, In x xs -> p x = false) -> filter p xs = [].
Proof.
  induction xs as [|x xs IH]; intros H; simpl; [reflexivity|].
  rewrite (H x) by now left. apply IH. intros y Hy. apply H. now right.
Qed.

Lemma some_name_of_member (f : IFile.t) (fs : list IFile.t) :
  In f fs ->
  some (fun newFile => (IFile.name newFile =? IFile.name f)%string) fs = true.
Proof.
  intros H. unfold some. apply existsb_exists.
  exists f. split; [exact H | apply String.eqb_refl].
Qed.

(** X11: storing in [files] the very list that is stored unlinks nothing,
    and storing the empty list unlinks every stored file, once each and
    in the order of the list. *)
Theorem setFiles_same_and_empty (this : IUnit.t) (w : World) :
  unlinkCalls (snd (FileUnit_setFiles this (IUnit.files this) w))
  = unlinkCalls w
  /\ unlinkCalls (snd (FileUnit_setFiles this [] w))
     = unlinkCalls w ++ map IFile.path (IUnit.files this).
Proof.
  unfold FileUnit_setFiles. simpl snd. split.
  - rewrite (forEach_unlink_calls
               (fun file =>
                  negb (some (fun newFile =>
                                (IFile.name newFile =? IFile.name file)%string)
                          (IUnit.files this)))).
    rewrite filter_none; [now rewrite app_nil_r|].
    intros f Hf. now rewrite some_name_of_member.
  - rewrite (forEach_unlink_calls
               (fun file =>
                  negb (some (fun newFile =>
                                (IFile.name newFile =? IFile.name file)%string)
                          []))).
    simpl. now rewrite filter_all.
Qed.

(** X12: an update with an upload.  When the body carries the stored
    list, the uploaded record is appended to it and storing the result
    unlinks nothing.  When the body carries no [files], the result is the
    uploaded record alone, and storing it unlinks every stored file that
    does not bear the name of the upload. *)
Theorem upload_then_setFiles (this : IUnit.t) (file : MulterFile.t)
    (body : FileUnitBody.t) (w : World) :
  let record := IFile.mk (MulterFile.path file) (MulterFile.filename file)
                  (MulterFile.originalname file) (MulterFile.size file) in
  let stored := FileUnitBody.filesOf (handleUploadedFile file body) in
  (FileUnitBody.files body = Some (IUnit.files this) ->
   stored = IUnit.files this ++ [record]
   /\ unlinkCalls (snd (FileUnit_setFiles this stored w)) = unlinkCalls w)
  /\ (FileUnitBody.files body = None ->
      stored = [record]
      /\ unlinkCalls (snd (FileUnit_setFiles this stored w))
         = unlinkCalls w
           ++ map IFile.path
                (filter (fun f =>
                           negb (MulterFile.filename file =? IFile.name f)%string)
                   (IUnit.files this))).
Proof.
  intros record stored. subst stored.
  unfold handleUploadedFile, FileUnit_setFiles. simpl snd. split.
  - intros Hb. rewrite Hb. unfold FileUnitBody.filesOf. simpl. rewrite Hb.
    split; [reflexivity|].
    rewrite (forEach_unlink_calls
               (fun f =>
                  negb (some (fun newFile =>
                                (IFile.name newFile =? IFile.name f)%string)
                          (push (IUnit.files this) record)))).
    rewrite filter_none; [now rewrite app_nil_r|].
    intros f Hf. rewrite some_name_of_member; [reflexivity|].
    unfold push. apply in_or_app. now left.
  - intros Hb. rewrite Hb. unfold FileUnitBody.filesOf. simpl.
    split; [reflexivity|].
    rewrite (forEach_unlink_calls
               (fun f =>
                  negb (some (fun newFile =>
                                (IFile.name newFile =? IFile.name f)%string)
                          (push [] record)))).
    f_equal. f_equal. apply filter_ext. intros f. simpl.
    now rewrite orb_false_r.
Qed.

Lemma upload_then_setFiles_witness :
  let w := sampleWorld (sampleCourse "free" true None []) in
  let record := IFile.mk "uploads/cc.pdf" "cc.pdf" "Exam.PDF" 30 in
  FileUnitBody.files (handoutBody (Some [slides; notes]))
  = Some (IUnit.files handout)
  /\ FileUnitBody.files (handoutBody None) = None
  /\ FileUnitBody.filesOf
       (handleUploadedFile upload (handoutBody (Some [slides; notes])))
     = [slides; notes; record]
  /\ unlinkCalls
       (snd (FileUnit_setFiles handout [slides; notes; record] w)) = []
  /\ unlinkCalls (snd (FileUnit_setFiles handout [record] w))
     = ["uploads/aa.pdf"; "uploads/bb.pdf"].
Proof.
  intros w record.
  destruct (upload_then_setFiles handout upload
              (handoutBody (Some [slides; notes])) w) as (Hkeep & _).
  destruct (upload_then_setFiles handout upload (handoutBody None) w)
    as (_ & Hdrop).
  destruct (Hkeep eq_refl) as (H1 & H2).
  destruct (Hdrop eq_refl) as (H3 & H4).
  split; [reflexivity|]. split; [reflexivity|].
  split; [exact H1|]. split.
  - rewrite H1 in H2. exact H2.
  - rewrite H3 in H4. exact H4.
Defined.

(** ** Deleting a unit, continued *)

Lemma findUnit_filter_other (id id' : ObjectId) (us : list IUnit.t) :
  id' <> id ->
  findUnit id' (filter (fun u => negb (IUnit._id u =? id)%string) us)
  = findUnit id' us.
Proof.
  intros Hne. induction us as [|u us IH]; simpl; [reflexivity|].
  destruct (String.eqb_spec (IUnit._id u) id) as [E|E]; simpl.
  - destruct (String.eqb_spec (IUnit._id u) id'); [congruence | exact IH].
  - now rewrite IH.
Qed.

Lemma forEach_unlink_all_users (fs : list IFile.t) (w : World) :
  Users (forEach fs (fun file => fs_unlink (IFile.path file) discard) w)
  = Users w.
Proof.
  unfold forEach. revert w.
  induction fs as [|f fs IH]; intros w; simpl; [reflexivity|].
  now rewrite IH.
Qed.

(** X13: deleting a unit that exists, of whatever variant, answers with
    success; afterwards no unit is found under its id and every other
    unit is found as before; [fs.unlink] has been called once for each
    of its file records, which are none for a unit that is no file unit;
    courses and users are as they were. *)
Theorem deleteUnit_removes_unit (id : ObjectId) (w : World) (unit : IUnit.t) :
  findUnit id (Units w) = Some unit ->
  let r := deleteUnit id w in
  fst r = Fulfilled true
  /\ findUnit id (Units (snd r)) = None
  /\ (forall id', id' <> id ->
        findUnit id' (Units (snd r)) = findUnit id' (Units w))
  /\ unlinkCalls (snd r)
     = unlinkCalls w ++ map IFile.path (IUnit.files unit)
  /\ Courses (snd r) = Courses w /\ Users (snd r) = Users w.
Proof.
  intros Hf r. subst r.
  pose proof (findUnit_id _ _ _ Hf) as Hid.
  unfold deleteUnit, andThen, Unit_findById. rewrite Hf.
  unfold Lecture_update, Unit_remove, resolve, FileUnit_preRemove.
  simpl fst. simpl snd.
  set (w1 := setLectures w _).
  destruct (forEach_unlink_all (IUnit.files unit) w1) as (Hc & _ & Hu & Hcs).
  pose proof (forEach_unlink_all_users (IUnit.files unit) w1) as Hus.
  assert (Hfiles : (IUnit.__t unit =? "file")%string = false ->
                   IUnit.files unit = []).
  { unfold IUnit.__t, IUnit.files.
    destruct (IUnit.variant unit); [discriminate | reflexivity..]. }
  destruct (IUnit.__t unit =? "file")%string eqn:Ht.
  - split; [reflexivity|]. simpl Units. rewrite Hu, Hid.
    split; [apply findUnit_removed|].
    split; [intros id' Hne; now apply findUnit_filter_other|].
    split; [exact Hc|].
    split; [exact Hcs | exact Hus].
  - rewrite (Hfiles eq_refl). simpl. rewrite app_nil_r, Hid.
    split; [reflexivity|].
    split; [apply findUnit_removed|].
    split; [intros id' Hne; now apply findUnit_filter_other|].
    auto.
Qed.

Lemma deleteUnit_removes_unit_witness :
  let w := sampleWorld (sampleCourse "free" true None []) in
  findUnit "k1" (Units w) = Some kata
  /\ findUnit "f1" (Units w) = Some handout
  /\ fst (deleteUnit "k1" w) = Fulfilled true
  /\ unlinkCalls (snd (deleteUnit "k1" w)) = []
  /\ findUnit "f1" (Units (snd (deleteUnit "k1" w))) = Some handout
  /\ unlinkCalls (snd (deleteUnit "f1" w))
     = ["uploads/aa.pdf"; "uploads/bb.pdf"]
  /\ findUnit "f1" (Units (snd (deleteUnit "f1" w))) = None.
Proof.
  intros w.
  destruct (deleteUnit_removes_unit "k1" w kata eq_refl)
    as (K1 & _ & K3 & K4 & _).
  destruct (deleteUnit_removes_unit "f1" w handout eq_refl)
    as (_ & F2 & _ & F4 & _).
  split; [reflexivity|]. split; [reflexivity|].
  split; [exact K1|]. split; [exact K4|].
  split; [apply K3; discriminate|].
  split; [exact F4 | exact F2].
Defined.

(** ** Upload names *)

Lemma lastIndexOfFrom_absent (s : string) (c : ascii) (i acc : Z) :
  occurs c s = false -> lastIndexOfFrom s c i acc = acc.
Proof.
  revert i acc. induction s as [|a s IH]; intros i acc H; simpl in *;
    [reflexivity|].
  apply orb_false_iff in H as (Ha & Hs). rewrite Ha. now apply IH.
Qed.

Lemma lastIndexOfFrom_last (p t : string) (c : ascii) (i acc : Z) :
  occurs c t = false ->
  lastIndexOfFrom (p ++ String c t) c i acc = i + Z.of_nat (String.length p).
Proof.
  intros Ht. revert i acc. induction p as [|a p IH]; intros i acc; simpl.
  - rewrite Ascii.eqb_refl, lastIndexOfFrom_absent by exact Ht. lia.
  - rewrite IH. lia.
Qed.

Lemma dropChars_append (p s : string) :
  dropChars (String.length p) (p ++ s) = s.
Proof. induction p as [|a p IH]; simpl; [now destruct s | exact IH]. Qed.

Lemma length_append (s t : string) :
  String.length (s ++ t) = (String.length s + String.length t)%nat.
Proof. induction s as [|a s IH]; simpl; [reflexivity | now rewrite IH]. Qed.

Lemma length_toHex (raw : list ascii) :
  String.length (toHex raw) = (2 * length raw)%nat.
Proof. induction raw as [|b raw IH]; simpl; [reflexivity | rewrite IH; lia]. Qed.

(** X14: the name an upload is stored under.  An original name without
    a dot gets no extension; otherwise the extension is a dot followed by
    the lower-cased part of the name after its last dot.  The stored name
    is that extension after two hexadecimal digits per random byte, and
    an error of the random source is handed on without a name. *)
Theorem uploadFilename_extension (toLowerCase : string -> string)
    (originalname : string) :
  (occurs "."%char originalname = false ->
   uploadExt toLowerCase originalname = EmptyString)
  /\ (forall p t, originalname = (p ++ String "."%char t)%string ->
        occurs "."%char t = false ->
        uploadExt toLowerCase originalname = String "."%char (toLowerCase t))
  /\ (forall raw,
        exists name,
          uploadFilename toLowerCase originalname (inr raw) = (None, Some name)
          /\ name = (toHex raw ++ uploadExt toLowerCase originalname)%string
          /\ String.length name
             = (2 * length raw
                + String.length (uploadExt toLowerCase originalname))%nat)
  /\ (forall err,
        uploadFilename toLowerCase originalname (inl err) = (Some err, None)).
Proof.
  split; [|split; [|split]].
  - intros H. unfold uploadExt, lastIndexOf.
    now rewrite lastIndexOfFrom_absent.
  - intros p t -> Ht. unfold uploadExt, lastIndexOf.
    rewrite lastIndexOfFrom_last by exact Ht.
    destruct (Z.eqb_spec (0 + Z.of_nat (String.length p)) (-1)); [lia|].
    simpl negb. cbv iota. f_equal. f_equal.
    unfold substr.
    destruct (Z.ltb_spec (0 + Z.of_nat (String.length p) + 1) 0); [lia|].
    replace (Z.to_nat (0 + Z.of_nat (String.length p) + 1))
      with (String.length (p ++ ".")) by (rewrite length_append; simpl; lia).
    replace (p ++ String "."%char t)%string with ((p ++ ".") ++ t)%string.
    + apply dropChars_append.
    + clear. induction p as [|a p IH]; simpl; [reflexivity | now rewrite IH].
  - intros raw. eexists. split; [reflexivity|]. split; [reflexivity|].
    now rewrite length_append, length_toHex.
  - reflexivity.
Qed.

Lemma uploadFilename_extension_witness :
  occurs "."%char "README" = false
  /\ uploadExt asciiToLowerCase "README" = EmptyString
  /\ "Final.Exam.PDF" = ("Final.Exam" ++ String "."%char "PDF")%string
  /\ occurs "."%char "PDF" = false
  /\ uploadExt asciiToLowerCase "Final.Exam.PDF" = ".pdf"
  /\ uploadFilename asciiToLowerCase "Final.Exam.PDF"
       (inr ["J"; "K"]%char) = (None, Some "4a4b.pdf").
Proof.
  destruct (uploadFilename_extension asciiToLowerCase "README") as (H1 & _).
  destruct (uploadFilename_extension asciiToLowerCase "Final.Exam.PDF")
    as (_ & H2 & _).
  split; [reflexivity|]. split; [exact (H1 eq_refl)|].
  split; [reflexivity|]. split; [reflexivity|].
  split; [exact (H2 "Final.Exam" "PDF" eq_refl eq_refl) | reflexivity].
Defined.

(** ** Adding a course *)

Lemma findCourseByName_none (name : string) (cs : list ICourse.t) :
  findCourseByName name cs = None
  <-> forall c, In c cs -> ICourse.name c <> name.
Proof.
  induction cs as [|c cs IH]; simpl.
  - split; [intros _ c [] | reflexivity].
  - destruct (String.eqb_spec (ICourse.name c) name) as [E|E].
    + split; [discriminate|]. intros H. exfalso. exact (H c (or_introl eq_refl) E).
    + rewrite IH. split.
      * intros H c' [<-|Hin]; auto.
      * intros H c' Hin. apply H. now right.
Qed.

(** X15: adding a course whose name a stored course already bears is
    refused with the duplicate-name error and writes nothing; otherwise
    the course joins the end of the collection with the acting user as
    its [courseAdmin], whoever the body names, and is the answer.  Either
    way, names that were pairwise different stay pairwise different. *)
Theorem addCourse_keeps_names_unique (course : ICourse.t) (u : IUser.t)
    (w : World) :
  let r := addCourse course u w in
  ((exists c, In c (Courses w) /\ ICourse.name c = ICourse.name course) ->
   r = (Rejected (BadRequestError course_duplicateName), w))
  /\ ((forall c, In c (Courses w) -> ICourse.name c <> ICourse.name course) ->
      fst r = Fulfilled (setCourseAdmin course (IUser._id u))
      /\ Courses (snd r)
         = Courses w ++ [setCourseAdmin course (IUser._id u)])
  /\ (NoDup (map ICourse.name (Courses w)) ->
      NoDup (map ICourse.name (Courses (snd r)))).
Proof.
  intros r. subst r. unfold addCourse, andThen, Course_findOne_name.
  cbv zeta.
  change (ICourse.name (setCourseAdmin course (IUser._id u)))
    with (ICourse.name course).
  destruct (findCourseByName (ICourse.name course) (Courses w)) as [c0|] eqn:Hf.
  - split; [reflexivity|]. split; [|tauto].
    intros H. apply findCourseByName_none in H. congruence.
  - pose proof (proj1 (findCourseByName_none _ _) Hf) as Hfresh.
    split.
    + intros (c & Hin & E). exfalso. exact (Hfresh c Hin E).
    + split; [intros _; split; reflexivity|].
      intros Hnd. unfold Course_create, resolve. simpl.
      rewrite map_app. simpl.
      apply NoDup_app; [exact Hnd | repeat constructor; intros [] |].
      intros n Hn [<-|[]].
      apply in_map_iff in Hn as (c & E & Hin). exact (Hfresh c Hin E).
Qed.

Lemma addCourse_keeps_names_unique_witness :
  let w := sampleWorld (sampleCourse "free" true None []) in
  let twin :=
    ICourse.mk "c9" "Advanced web development" "Again" true "free" None
      [] "u3" [] [] [] in
  (exists c, In c (Courses w) /\ ICourse.name c = ICourse.name twin)
  /\ addCourse twin snape w
     = (Rejected (BadRequestError course_duplicateName), w)
  /\ (forall c, In c (Courses w) -> ICourse.name c <> ICourse.name newCourse)
  /\ NoDup (map ICourse.name (Courses w))
  /\ ICourse.courseAdmin newCourse = "u3"
  /\ fst (addCourse newCourse snape w)
     = Fulfilled (setCourseAdmin newCourse "t1")
  /\ NoDup (map ICourse.name (Courses (snd (addCourse newCourse snape w)))).
Proof.
  intros w twin.
  assert (Hdup : exists c, In c (Courses w)
                           /\ ICourse.name c = ICourse.name twin)
    by (eexists; split; [now left | reflexivity]).
  assert (Hfresh : forall c, In c (Courses w) ->
                             ICourse.name c <> ICourse.name newCourse)
    by (intros c [<-|[]]; discriminate).
  assert (Hnd : NoDup (map ICourse.name (Courses w)))
    by (repeat constructor; intros []).
  destruct (addCourse_keeps_names_unique twin snape w) as (H1 & _).
  destruct (addCourse_keeps_names_unique newCourse snape w) as (_ & H2 & H3).
  split; [exact Hdup|]. split; [exact (H1 Hdup)|].
  split; [exact Hfresh|]. split; [exact Hnd|]. split; [reflexivity|].
  split; [exact (proj1 (H2 Hfresh)) | exact (H3 Hnd)].
Defined.

(** X16: whoever adds a course and is no student can open it right
    away: the read of the new course's id that follows is answered with a
    course of that id. *)
Theorem creator_reads_new_course (course : ICourse.t) (u : IUser.t)
    (w : World) :
  IUser.role u <> "student" ->
  (forall c, In c (Courses w) -> ICourse.name c <> ICourse.name course) ->
  let w' := snd (addCourse course u w) in
  exists o, getCourse (ICourse._id course) u w' = (Fulfilled o, w')
            /\ CourseObject._id o = ICourse._id course.
Proof.
  intros Hr Hfresh w'.
  set (c' := setCourseAdmin course (IUser._id u)).
  assert (Hin : In c' (Courses w')).
  { subst w'. unfold addCourse, andThen, Course_findOne_name. cbv zeta.
    change (ICourse.name (setCourseAdmin course (IUser._id u)))
      with (ICourse.name course).
    rewrite (proj2 (findCourseByName_none _ _) Hfresh).
    unfold Course_create, resolve. simpl. apply in_or_app. right. now left. }
  destruct (find_exists
              (matches (mkConditions (cond_active (userReadConditions u))
                          (cond_or (userReadConditions u))
                          (Some (ICourse._id course))))
              (Courses w') c' Hin) as [c'' Hc''].
  - apply matches_read. split; [|reflexivity].
    unfold mayRead.
    destruct (IUser.role u =? "admin")%string; [exact I|].
    destruct (String.eqb_spec (IUser.role u) "student"); [contradiction|].
    right. reflexivity.
  - exact (getCourse_found _ u w' c'' Hc'').
Qed.

Lemma creator_reads_new_course_witness :
  let w := sampleWorld (sampleCourse "free" true None []) in
  IUser.role snape <> "student"
  /\ (forall c, In c (Courses w) -> ICourse.name c <> ICourse.name newCourse)
  /\ getCourse "c2" snape w = (Rejected NotFoundError, w)
  /\ exists o,
       getCourse "c2" snape (snd (addCourse newCourse snape w))
       = (Fulfilled o, snd (addCourse newCourse snape w))
       /\ CourseObject._id o = "c2".
Proof.
  intros w.
  assert (Hfresh : forall c, In c (Courses w) ->
                             ICourse.name c <> ICourse.name newCourse)
    by (intros c [<-|[]]; discriminate).
  split; [discriminate|]. split; [exact Hfresh|]. split; [reflexivity|].
  apply (creator_reads_new_course newCourse snape w ltac:(discriminate) Hfresh).
Defined.

(** ** Updating a course *)

Lemma updateFirst_none {A} (p : A -> bool) (f : A -> A) (xs : list A) :
  (forall x, In x xs -> p x = false) ->
  find p xs = None /\ updateFirst p f xs = xs.
Proof.
  induction xs as [|x xs IH]; intros H; simpl; [tauto|].
  rewrite (H x) by now left.
  destruct IH as (H1 & H2); [intros y Hy; apply H; now right|].
  now rewrite H1, H2.
Qed.

Lemma updateFirst_by_id (id : ObjectId) (p : ICourse.t -> bool)
    (f : ICourse.t -> ICourse.t) (cs : list ICourse.t) (c : ICourse.t) :
  (forall x, p x = true -> ICourse._id x = id) ->
  (forall x, ICourse._id (f x) = ICourse._id x) ->
  findCourse id cs = Some c -> p c = true ->
  find p cs = Some c
  /\ findCourse id (updateFirst p f cs) = Some (f c)
  /\ forall id', id' <> id ->
       findCourse id' (updateFirst p f cs) = findCourse id' cs.
Proof.
  intros Hp Hf Hc Hpc.
  induction cs as [|x xs IH]; simpl in *; [discriminate|].
  destruct (String.eqb_spec (ICourse._id x) id) as [E|E].
  - injection Hc as ->. rewrite Hpc. simpl. rewrite Hf.
    destruct (String.eqb_spec (ICourse._id c) id); [|contradiction].
    split; [reflexivity|]. split; [reflexivity|].
    intros id' Hne.
    destruct (String.eqb_spec (ICourse._id c) id'); [congruence | reflexivity].
  - destruct (p x) eqn:Hx; [apply Hp in Hx; contradiction|].
    destruct (IH Hc) as (H1 & H2 & H3). simpl.
    destruct (String.eqb_spec (ICourse._id x) id); [contradiction|].
    split; [exact H1|]. split; [exact H2|].
    intros id' Hne. now rewrite H3.
Qed.

Lemma matches_update (id : ObjectId) (u : IUser.t) (c : ICourse.t) :
  matches
    (if negb (IUser.role u =? "admin")%string
     then mkConditions None
            (Some [teachers_has (IUser._id u); courseAdmin_is (IUser._id u)])
            (Some id)
     else mkConditions None None (Some id)) c = true
  <-> ICourse._id c = id
      /\ (IUser.role u = "admin"
          \/ In (IUser._id u) (ICourse.teachers c)
          \/ ICourse.courseAdmin c = IUser._id u).
Proof.
  unfold matches.
  destruct (String.eqb_spec (IUser.role u) "admin") as [Hr|Hr]; simpl.
  - rewrite String.eqb_eq. tauto.
  - rewrite andb_true_iff, orb_false_r, orb_true_iff, existsb_eqb_In,
      !String.eqb_eq. tauto.
Qed.

(** X17: an update by a user who is no admin and neither teaches nor
    administers a course of the given id is answered with [undefined],
    not with an error, and writes nothing. *)
Theorem updateCourse_without_rights (id : ObjectId) (course : CoursePatch.t)
    (u : IUser.t) (w : World) :
  IUser.role u <> "admin" ->
  (forall c, In c (Courses w) -> ICourse._id c = id ->
     ~ In (IUser._id u) (ICourse.teachers c)
     /\ ICourse.courseAdmin c <> IUser._id u) ->
  updateCourse id course u w = (Fulfilled None, w).
Proof.
  intros Hr Hno. unfold updateCourse, andThen, Course_findOneAndUpdate, resolve.
  cbv zeta.
  match goal with
  | |- context [find ?p (Courses w)] =>
      destruct (updateFirst_none p (CoursePatch.apply course) (Courses w))
        as (H1 & H2)
  end.
  - intros c Hin.
    match goal with |- ?m = false => destruct m eqn:Hm; [|reflexivity] end.
    apply matches_update in Hm as (Hid & [Ha|[Ht|Hc]]).
    + contradiction.
    + destruct (Hno c Hin Hid). contradiction.
    + destruct (Hno c Hin Hid). contradiction.
  - rewrite H1, H2. simpl. now rewrite setCourses_same.
Qed.

Lemma updateCourse_without_rights_witness :
  let w := sampleWorld (sampleCourse "free" true None ["u3"]) in
  let patch :=
    CoursePatch.mk (Some "Renamed") None None None None None None None None
      None in
  IUser.role bob <> "admin"
  /\ (forall c, In c (Courses w) -> ICourse._id c = "c1" ->
        ~ In (IUser._id bob) (ICourse.teachers c)
        /\ ICourse.courseAdmin c <> IUser._id bob)
  /\ updateCourse "c1" patch bob w = (Fulfilled None, w).
Proof.
  intros w patch.
  assert (Hno : forall c, In c (Courses w) -> ICourse._id c = "c1" ->
                  ~ In (IUser._id bob) (ICourse.teachers c)
                  /\ ICourse.courseAdmin c <> IUser._id bob).
  { intros c [<-|[]] _. split; [intros [] | discriminate]. }
  split; [discriminate|]. split; [exact Hno|].
  apply (updateCourse_without_rights "c1" patch bob w ltac:(discriminate) Hno).
Defined.

(** X18: an update by an admin, a teacher of the course or its
    [courseAdmin] sets the fields the body carries and keeps the others;
    the updated course is the answer and is what is found under the id
    afterwards; every other course and everything outside the courses is
    as before. *)
Theorem updateCourse_with_rights (id : ObjectId) (course : CoursePatch.t)
    (u : IUser.t) (w : World) (c : ICourse.t) :
  findCourse id (Courses w) = Some c ->
  IUser.role u = "admin"
  \/ In (IUser._id u) (ICourse.teachers c)
  \/ ICourse.courseAdmin c = IUser._id u ->
  let r := updateCourse id course u w in
  fst r = Fulfilled (Some (CoursePatch.apply course c))
  /\ findCourse id (Courses (snd r)) = Some (CoursePatch.apply course c)
  /\ (forall id', id' <> id ->
        findCourse id' (Courses (snd r)) = findCourse id' (Courses w))
  /\ Lectures (snd r) = Lectures w /\ Units (snd r) = Units w
  /\ Users (snd r) = Users w /\ unlinkCalls (snd r) = unlinkCalls w.
Proof.
  intros Hf Hright r. subst r.
  unfold updateCourse, andThen, Course_findOneAndUpdate, resolve. cbv zeta.
  match goal with
  | |- context [find ?p (Courses w)] =>
      destruct (updateFirst_by_id id p (CoursePatch.apply course) (Courses w) c)
        as (H1 & H2 & H3)
  end.
  - intros x Hx. now apply matches_update in Hx.
  - reflexivity.
  - exact Hf.
  - apply matches_update. split; [exact (findCourse_id _ _ _ Hf) | exact Hright].
  - rewrite H1. simpl. repeat split; assumption.
Qed.

Lemma updateCourse_with_rights_witness :
  let c := sampleCourse "free" true None ["u3"] in
  let w := sampleWorld c in
  let patch :=
    CoursePatch.mk None None (Some false) (Some "accesskey")
      (Some (Some "s3cr3t")) None None None None None in
  findCourse "c1" (Courses w) = Some c
  /\ ICourse.courseAdmin c = IUser._id snape
  /\ fst (updateCourse "c1" patch snape w)
     = Fulfilled (Some (sampleCourse "accesskey" false (Some "s3cr3t") ["u3"])).
Proof.
  intros c w patch.
  destruct (updateCourse_with_rights "c1" patch snape w c eq_refl
              (or_intror (or_intror eq_refl))) as (H & _).
  split; [reflexivity|]. split; [reflexivity|]. exact H.
Defined.

(** ** Deleting a course *)

Lemma indexOf_minus_one (xs : list ObjectId) (x : ObjectId) :
  (indexOf xs x =? -1) = true <-> ~ In x xs.
Proof.
  rewrite Z.eqb_eq. unfold indexOf.
  pose proof (indexOfFrom_range xs x 0) as Hr.
  pose proof (indexOfFrom_absent xs x 0 ltac:(lia)) as Ha.
  split; intros H.
  - apply Ha. lia.
  - apply Ha in H. lia.
Qed.

Lemma findCourse_removed (id : ObjectId) (cs : list ICourse.t) :
  findCourse id (filter (fun c => negb (ICourse._id c =? id)%string) cs) = None.
Proof.
  induction cs as [|c cs IH]; simpl; [reflexivity|].
  destruct (ICourse._id c =? id)%string eqn:E; simpl; [exact IH|].
  now rewrite E.
Qed.

Section CourseRemovalFacts.

Variable Course_preRemove : ICourse.t -> World -> World.

(** X19: who may delete a course whose [courseAdmin] account exists.  A
    teacher of the course, its [courseAdmin] and any admin get the course
    removed: the answer is success and no course is found under the id
    afterwards, whatever the remove hooks of the course do.  Anybody else
    is refused with Forbidden and nothing is written. *)
Theorem deleteCourse_rights (id : ObjectId) (u : IUser.t) (w : World)
    (c : ICourse.t) (a : IUser.t) :
  findCourse id (Courses w) = Some c ->
  findUser (ICourse.courseAdmin c) (Users w) = Some a ->
  let allowed :=
    In (IUser._id u) (ICourse.teachers c)
    \/ ICourse.courseAdmin c = IUser._id u
    \/ IUser.role u = "admin" in
  let r := deleteCourse Course_preRemove id u w in
  (allowed -> fst r = inl true /\ findCourse id (Courses (snd r)) = None)
  /\ (~ allowed -> r = (inr (ExForbidden "Forbidden!"), w)).
Proof.
  intros Hf Ha allowed r. subst allowed r.
  pose proof (findCourse_id _ _ _ Hf) as Hid.
  pose proof (findUser_id _ _ _ Ha) as Haid.
  unfold deleteCourse, await, ofPromise, Course_findById, User_findOne, ret,
    raise.
  rewrite Hf, Ha.
  assert (Hgone :
            fst (let (s, w') := Course_remove Course_preRemove c w in
                 match s with
                 | inl _ => (inl true, w')
                 | inr e => (inr e, w')
                 end) = inl true
            /\ findCourse id
                 (Courses
                    (snd (let (s, w') := Course_remove Course_preRemove c w in
                          match s with
                          | inl _ => (@inl bool Exception true, w')
                          | inr e => (inr e, w')
                          end))) = None).
  { unfold Course_remove. simpl. rewrite Hid.
    split; [reflexivity | apply findCourse_removed]. }
  destruct (indexOf (ICourse.teachers c) (IUser._id u) =? -1) eqn:Ht; simpl negb;
    cbv iota.
  - apply indexOf_minus_one in Ht.
    destruct (String.eqb_spec (IUser._id a) (IUser._id u)) as [E|E]; simpl orb.
    + split; [intros _; exact Hgone|].
      intros H; exfalso; apply H; right; left; congruence.
    + destruct (String.eqb_spec (IUser.role u) "admin") as [Hr|Hr].
      * split; [intros _; exact Hgone|].
        intros H; exfalso; apply H; right; right; exact Hr.
      * split; [|reflexivity].
        intros [H|[H|H]]; [contradiction | congruence | contradiction].
  - assert (Hin : In (IUser._id u) (ICourse.teachers c)).
    { destruct (in_dec string_dec (IUser._id u) (ICourse.teachers c));
        [assumption|].
      apply indexOf_minus_one in n. congruence. }
    split; [intros _; exact Hgone|].
    intros H; exfalso; apply H; now left.
Qed.

End CourseRemovalFacts.

Lemma deleteCourse_rights_witness :
  let c := sampleCourse "free" true None ["u3"] in
  let w := sampleWorld c in
  let keep := fun (_ : ICourse.t) (w0 : World) => w0 in
  findCourse "c1" (Courses w) = Some c
  /\ findUser (ICourse.courseAdmin c) (Users w) = Some snape
  /\ ICourse.courseAdmin c = IUser._id snape
  /\ fst (deleteCourse keep "c1" snape w) = inl true
  /\ findCourse "c1" (Courses (snd (deleteCourse keep "c1" snape w))) = None
  /\ deleteCourse keep "c1" bob w = (inr (ExForbidden "Forbidden!"), w).
Proof.
  intros c w keep.
  destruct (deleteCourse_rights keep "c1" snape w c snape eq_refl eq_refl)
    as (Hyes & _).
  destruct (deleteCourse_rights keep "c1" bob w c snape eq_refl eq_refl)
    as (_ & Hno).
  destruct (Hyes (or_intror (or_introl eq_refl))) as (H1 & H2).
  split; [reflexivity|]. split; [reflexivity|]. split; [reflexivity|].
  split; [exact H1|]. split; [exact H2|].
  apply Hno. intros [[]|[H|H]]; discriminate.
Defined.

(** ** Lectures and post parameters *)

Lemma findLecture_id (id : ObjectId) (ls : list (ILecture.t ObjectId))
    (l : ILecture.t ObjectId) :
  findLecture id ls = Some l -> ILecture._id l = id.
Proof.
  induction ls as [|l' ls IH]; simpl; [discriminate|].
  destruct (String.eqb_spec (ILecture._id l') id); [|exact IH].
  intros [= <-]. assumption.
Qed.

Lemma findLecture_replace (id : ObjectId) (ls : list (ILecture.t ObjectId))
    (l0 l : ILecture.t ObjectId) :
  findLecture id ls = Some l0 -> ILecture._id l = id ->
  findLecture id (replaceLecture l ls) = Some l
  /\ forall id', id' <> id ->
       findLecture id' (replaceLecture l ls) = findLecture id' ls.
Proof.
  intros Hf Hid. subst id.
  induction ls as [|l' ls IH]; simpl in *; [discriminate|].
  destruct (String.eqb_spec (ILecture._id l') (ILecture._id l)) as [E|E]; simpl.
  - rewrite String.eqb_refl. split; [reflexivity|].
    intros id' Hne.
    destruct (String.eqb_spec (ILecture._id l) id'); [congruence|].
    destruct (String.eqb_spec (ILecture._id l') id'); [congruence | reflexivity].
  - destruct (String.eqb_spec (ILecture._id l') (ILecture._id l));
      [contradiction|].
    destruct (IH Hf) as (H1 & H2). split; [exact H1|].
    intros id' Hne. now rewrite H2.
Qed.

(** X20: pushing a unit to a lecture that exists appends the unit's id
    at the end of that lecture's list, leaves every other lecture, the
    units and the courses as they are, and answers with the unit; a
    lecture id that names no lecture is answered with a bad request and
    nothing is written. *)
Theorem pushToLecture_appends (lectureId : ObjectId) (unit : IUnit.t)
    (w : World) :
  let r := pushToLecture lectureId unit w in
  (forall l, findLecture lectureId (Lectures w) = Some l ->
     fst r = inl unit
     /\ findLecture lectureId (Lectures (snd r))
        = Some (ILecture.setUnits l (ILecture.units l ++ [IUnit._id unit]))
     /\ (forall id', id' <> lectureId ->
           findLecture id' (Lectures (snd r)) = findLecture id' (Lectures w))
     /\ Units (snd r) = Units w /\ Courses (snd r) = Courses w)
  /\ (findLecture lectureId (Lectures w) = None ->
      r = (inr (ExBadRequestOf ExTypeError), w)).
Proof.
  intros r. subst r.
  unfold pushToLecture, tryCatch, await, Lecture_findById.
  destruct (findLecture lectureId (Lectures w)) as [l0|] eqn:Hf.
  - split; [|discriminate]. intros l [= <-].
    unfold Lecture_save, ret. simpl.
    destruct (findLecture_replace lectureId (Lectures w) l0
                (ILecture.setUnits l0
                   (push (ILecture.units l0) (IUnit._id unit))) Hf)
      as (H1 & H2); [exact (findLecture_id _ _ _ Hf)|].
    auto.
  - split; [discriminate | reflexivity].
Qed.

Lemma pushToLecture_appends_witness :
  let w := sampleWorld (sampleCourse "free" true None []) in
  findLecture "l2" (Lectures w)
  = Some (ILecture.mk "l2" "Files" "Second week" ["f1"])
  /\ findLecture "l2" (Lectures (snd (pushToLecture "l2" kata w)))
     = Some (ILecture.mk "l2" "Files" "Second week" ["f1"; "k1"])
  /\ findLecture "zz" (Lectures w) = None
  /\ pushToLecture "zz" kata w = (inr (ExBadRequestOf ExTypeError), w).
Proof.
  intros w.
  destruct (pushToLecture_appends "l2" kata w) as (Hok & _).
  destruct (pushToLecture_appends "zz" kata w) as (_ & Hbad).
  destruct (Hok _ eq_refl) as (_ & H2 & _).
  split; [reflexivity|]. split; [exact H2|]. split; [reflexivity|].
  exact (Hbad eq_refl).
Defined.

Lemma removePath_removes (p : string) (ps : list string) :
  ~ In p (removePath p ps).
Proof.
  unfold removePath. intros H. apply filter_In in H as (_ & H).
  now rewrite String.eqb_refl in H.
Qed.

(** X21: the parameters of a post are accepted exactly when the data
    carry a truthy [lectureId] and a [model] object with a truthy
    [_course], and accepting writes nothing.  When they are refused and
    no file came with the request, nothing is written; when a file came
    with it and is on the disk, the file is deleted, no other file is,
    and the error is the one of the failed check. *)
Theorem checkPostParam_cleans_up (data : PostData)
    (file : option MulterFile.t) (w : World) :
  let r := checkPostParam data file w in
  (fst r = inl tt
   <-> exists lectureId _course,
         data = DataObject lectureId (ModelObject _course)
         /\ isTruthy lectureId = true /\ isTruthy _course = true)
  /\ (fst r = inl tt -> snd r = w)
  /\ (file = None -> snd r = w)
  /\ (forall f e, file = Some f -> fst r = inr e ->
        In (MulterFile.path f) (disk w) ->
        disk (snd r) = removePath (MulterFile.path f) (disk w)
        /\ ~ In (MulterFile.path f) (disk (snd r))
        /\ fst (checkPostParam data None w) = inr e).
Proof.
  intros r. subst r.
  assert (Hsync : forall f, In (MulterFile.path f) (disk w) ->
            existsb (String.eqb (MulterFile.path f)) (disk w) = true).
  { intros f Hin. apply existsb_exists. exists (MulterFile.path f).
    split; [exact Hin | apply String.eqb_refl]. }
  unfold checkPostParam, tryCatch, await, raise, ret, fs_unlinkSync.
  destruct data as [|lectureId model];
    [|destruct (isTruthy lectureId) eqn:Hl;
      [destruct model as [| |course];
       [| |destruct (isTruthy course) eqn:Hc]|]];
    simpl negb; cbv iota beta.
  all: split;
    [split;
     [try (intros _; eauto; fail);
      destruct file as [f|]; simpl; try destruct (existsb _ _); discriminate
     |intros (l' & c' & E & Hl' & Hc'); inversion E; subst;
      try congruence; reflexivity]|].
  all: split;
    [try reflexivity;
     destruct file as [f|]; simpl; try destruct (existsb _ _); discriminate|].
  all: split; [now intros ->|].
  all: intros f e -> He Hin; pose proof (Hsync f Hin) as Hx;
    simpl in He |- *; try rewrite Hx in He; try rewrite Hx; simpl in He |- *;
    try discriminate He.
  all: split; [reflexivity|]; split; [apply removePath_removes | exact He].
Qed.

Lemma checkPostParam_cleans_up_witness :
  let w := setDisk (sampleWorld (sampleCourse "free" true None []))
             ["uploads/aa.pdf"; "uploads/cc.pdf"] in
  let bad := DataObject (JsString "l1") ModelFalsy in
  let good := DataObject (JsString "l1") (ModelObject (JsString "c1")) in
  In (MulterFile.path upload) (disk w)
  /\ fst (checkPostParam bad (Some upload) w)
     = inr (ExBadRequest "No unit was submitted.")
  /\ disk (snd (checkPostParam bad (Some upload) w)) = ["uploads/aa.pdf"]
  /\ checkPostParam good (Some upload) w = (inl tt, w).
Proof.
  intros w bad good.
  assert (Hin : In (MulterFile.path upload) (disk w)) by (right; now left).
  destruct (checkPostParam_cleans_up bad (Some upload) w) as (_ & _ & _ & Hb).
  destruct (checkPostParam_cleans_up good (Some upload) w) as (Hg & Hw & _).
  destruct (Hb upload _ eq_refl eq_refl Hin) as (Hd & _ & _).
  split; [exact Hin|]. split; [reflexivity|]. split; [exact Hd|].
  assert (Hok : fst (checkPostParam good (Some upload) w) = inl tt).
  { apply Hg. exists (JsString "l1"), (JsString "c1"). repeat split. }
  specialize (Hw Hok).
  destruct (checkPostParam good (Some upload) w) as [x w1]. simpl in *.
  now subst.
Defined.

(** ** The whitelist check *)

Section WhitelistCheck.

Variable toLowerCase : string -> string.
Variable WhitelistUser_find :
  list IWhitelistUser.t -> list ObjectId -> list IWhitelistUser.t.

(** X22: on a course that admits by whitelist, a user is refused with
    the not-on-whitelist error, and nothing is written, exactly when no
    entry the whitelist query hands back carries the user's lower-cased
    first name, lower-cased last name and uid; the entry's own fields are
    compared as they are stored, and the uid letter for letter. *)
Theorem enroll_whitelist_refuses_unlisted (id : ObjectId) (data : EnrollData)
    (u : IUser.t) (w : World) (c : ICourse.t) :
  findCourse id (Courses w) = Some c ->
  ICourse.enrollType c = "whitelist" ->
  let listed :=
    exists e,
      In e (WhitelistUser_find (WhitelistUsers w) (ICourse.whitelist c))
      /\ IWhitelistUser.firstName e = toLowerCase (IUser.firstName u)
      /\ IWhitelistUser.lastName e = toLowerCase (IUser.lastName u)
      /\ IWhitelistUser.uid e = IUser.uid u in
  enrollStudent toLowerCase WhitelistUser_find id data u w
  = (Rejected (ForbiddenError course_notOnWhitelist), w)
  <-> ~ listed.
Proof.
  intros Hf Ht listed. subst listed.
  rewrite (enroll_whitelist _ _ _ _ _ _ _ Hf Ht).
  destruct (existsb (onWhitelist toLowerCase u) _) eqn:He.
  - split; [discriminate|]. intros H. exfalso. apply H.
    apply existsb_exists in He as (e & Hin & Hm). exists e.
    unfold onWhitelist in Hm.
    rewrite !andb_true_iff, !String.eqb_eq in Hm. tauto.
  - split; [|reflexivity]. intros _ (e & Hin & H1 & H2 & H3).
    assert (Hm : onWhitelist toLowerCase u e = true).
    { unfold onWhitelist. rewrite H1, H2, H3, !String.eqb_refl. reflexivity. }
    assert (Hx : existsb (onWhitelist toLowerCase u)
                   (WhitelistUser_find (WhitelistUsers w) (ICourse.whitelist c))
                 = true)
      by (apply existsb_exists; eauto).
    congruence.
Qed.

End WhitelistCheck.

Lemma enroll_whitelist_refuses_unlisted_witness :
  let c := sampleCourse "whitelist" true None [] in
  let w := sampleWorld c in
  findCourse "c1" (Courses w) = Some c
  /\ ICourse.enrollType c = "whitelist"
  /\ (~ exists e,
        In e (whitelistByRefs (WhitelistUsers w) (ICourse.whitelist c))
        /\ IWhitelistUser.firstName e = asciiToLowerCase (IUser.firstName ada2)
        /\ IWhitelistUser.lastName e = asciiToLowerCase (IUser.lastName ada2)
        /\ IWhitelistUser.uid e = IUser.uid ada2)
  /\ enrollAscii "c1" noKey ada2 w
     = (Rejected (ForbiddenError course_notOnWhitelist), w).
Proof.
  intros c w.
  pose proof (enroll_whitelist_refuses_unlisted asciiToLowerCase
                whitelistByRefs "c1" noKey ada2 w c eq_refl eq_refl) as H.
  split; [reflexivity|]. split; [reflexivity|].
  split; [apply H; reflexivity | reflexivity].
Defined.
